(** * tdex-app: order computation, best-order selection and
      confidential-input resolution

    A shallow embedding of [src/services/tdexService/index.ts]:
    [computeOrdersV1], [computeOrdersV2], [discoverBestOrder] and
    [psetToUnblindedInputs], together with the properties the
    specification states about them; then [getTradablesAssets],
    [getClearTextTorProxyUrl], [previewTradeV1], [previewTradeV2],
    [makeTradeV1], [makeTradeV2], [getMarketsFromProviderV1] and
    [getMarketsFromProviderV2], with further properties read off the
    code.

    Conventions of the embedding
    - a JS array is a [list]; [arr[0]] is [head arr : option _], [None]
      standing for [undefined];
    - a JS object used as a dictionary ([Record<string, _>]) is a
      [gmap string _]; the keys used here are hexadecimal renderings and
      outpoint keys, never the name of an inherited property;
    - an amount in satoshis ([sats], [value]) is an integer;
    - a [Buffer] is a [list byte]; its hexadecimal rendering is [toHex];
    - a [for ... of] loop that pushes onto an array is a [fold_left]
      whose accumulator is the array;
    - a function that may [throw] returns a [result];
    - calls that leave the process (the two discoverers) and the console
      are recorded in a trace of [event]s. *)

From Stdlib Require Import ZArith Strings.Byte Ascii String List Sorted Lia.
From stdpp Require Import base option list gmap strings pretty.

(** ** Data model *)

(** [TDEXProvider] of [v1/tradeCore]: only the fields read here. *)
Record TDEXProvider := mkProvider {
name : string;
endpoint : string
}.

(** A trader client is determined by the two arguments of its constructor. *)
Record TraderClient := mkTraderClient {
providerUrl : string;
clientTorProxy : string
}.

Module V1.
Inductive TradeType := BUY | SELL.

(** [TDEXMarket]: the provider and the asset pair; balance and fee fields
    are spread into the object by the catalog builder and are not read by
    any function embedded here, they are kept as one opaque payload. *)
Record TDEXMarket := mkMarket {
  provider : TDEXProvider;
  baseAsset : string;
  quoteAsset : string;
  balanceAndFee : list (string * Z)
}.

Record TradeOrder := mkOrder {
  market : TDEXMarket;
  type : TradeType;
  traderClient : TraderClient
}.
End V1.

Module V2.
Inductive TradeType := BUY | SELL.

Record TDEXMarket := mkMarket {
  provider : TDEXProvider;
  baseAsset : string;
  quoteAsset : string;
  balanceAndFee : list (string * Z)
}.

Record TradeOrder := mkOrder {
  market : TDEXMarket;
  type : TradeType;
  traderClient : TraderClient
}.
End V2.

(** The closure of [discoverBestOrder] resolves to
  [TradeOrderV1 | TradeOrderV2]. *)
Inductive AnyTradeOrder :=
| OrderV1 (o : V1.TradeOrder)
| OrderV2 (o : V2.TradeOrder).

(** [arr[0] ?? other] on arrays of objects. *)
Definition nullish {A} (x y : option A) : option A :=
match x with
| Some v => Some v
| None => y
end.

(** ** Order computer *)

Section OrderComputer.

(** [config.torProxy], defined in [store/config]: a parameter of the
    development. *)
Variable config_torProxy : string.

Definition createTraderClientV1 (endpoint : string) (proxy : option string)
  : TraderClient :=
  mkTraderClient endpoint (default "https://proxy.tdex.network"%string proxy).

Definition createTraderClientV2 (endpoint : string) (proxy : option string)
  : TraderClient :=
  mkTraderClient endpoint (default config_torProxy proxy).

(** One iteration of the loop of [computeOrdersV1]: two independent
    [if] statements, each pushing at most one order. *)
Definition computeOrdersV1_step (sentAsset receivedAsset : string)
    (torProxy : option string)
    (trades : list V1.TradeOrder) (market : V1.TDEXMarket)
  : list V1.TradeOrder :=
  let trades :=
    if (String.eqb sentAsset (V1.baseAsset market))
       && (String.eqb receivedAsset (V1.quoteAsset market))
    then trades ++
         [V1.mkOrder market V1.SELL
            (createTraderClientV1 (endpoint (V1.provider market)) torProxy)]
    else trades in
  if (String.eqb sentAsset (V1.quoteAsset market))
     && (String.eqb receivedAsset (V1.baseAsset market))
  then trades ++
       [V1.mkOrder market V1.BUY
          (createTraderClientV1 (endpoint (V1.provider market)) torProxy)]
  else trades.

Definition computeOrdersV1 (markets : list V1.TDEXMarket)
    (sentAsset receivedAsset : string) (torProxy : option string)
  : list V1.TradeOrder :=
  fold_left (computeOrdersV1_step sentAsset receivedAsset torProxy)
            markets [].

Definition computeOrdersV2_step (sentAsset receivedAsset : string)
    (torProxy : option string)
    (trades : list V2.TradeOrder) (market : V2.TDEXMarket)
  : list V2.TradeOrder :=
  let trades :=
    if (String.eqb sentAsset (V2.baseAsset market))
       && (String.eqb receivedAsset (V2.quoteAsset market))
    then trades ++
         [V2.mkOrder market V2.SELL
            (createTraderClientV2 (endpoint (V2.provider market)) torProxy)]
    else trades in
  if (String.eqb sentAsset (V2.quoteAsset market))
     && (String.eqb receivedAsset (V2.baseAsset market))
  then trades ++
       [V2.mkOrder market V2.BUY
          (createTraderClientV2 (endpoint (V2.provider market)) torProxy)]
  else trades.

Definition computeOrdersV2 (markets : list V2.TDEXMarket)
    (sentAsset receivedAsset : string) (torProxy : option string)
  : list V2.TradeOrder :=
  fold_left (computeOrdersV2_step sentAsset receivedAsset torProxy)
            markets [].

(** The orders one market gives rise to, in the words of the
    specification (section 4.2): a SELL order when the pair is
    (base, quote), a BUY order when it is (quote, base), nothing
    otherwise. *)
Definition spec_ordersOfMarketV1 (sentAsset receivedAsset : string)
    (torProxy : option string) (m : V1.TDEXMarket) : list V1.TradeOrder :=
  (if bool_decide (sentAsset = V1.baseAsset m
                   ∧ receivedAsset = V1.quoteAsset m)
   then [V1.mkOrder m V1.SELL
           (createTraderClientV1 (endpoint (V1.provider m)) torProxy)]
   else [])
  ++
  (if bool_decide (sentAsset = V1.quoteAsset m
                   ∧ receivedAsset = V1.baseAsset m)
   then [V1.mkOrder m V1.BUY
           (createTraderClientV1 (endpoint (V1.provider m)) torProxy)]
   else []).

Definition spec_ordersOfMarketV2 (sentAsset receivedAsset : string)
    (torProxy : option string) (m : V2.TDEXMarket) : list V2.TradeOrder :=
  (if bool_decide (sentAsset = V2.baseAsset m
                   ∧ receivedAsset = V2.quoteAsset m)
   then [V2.mkOrder m V2.SELL
           (createTraderClientV2 (endpoint (V2.provider m)) torProxy)]
   else [])
  ++
  (if bool_decide (sentAsset = V2.quoteAsset m
                   ∧ receivedAsset = V2.baseAsset m)
   then [V2.mkOrder m V2.BUY
           (createTraderClientV2 (endpoint (V2.provider m)) torProxy)]
   else []).

End OrderComputer.

(** ** Errors, results and traces *)

(** What the embedded code throws. [Error msg] is [new Error(msg)], also
    standing for whatever a discoverer rejects with. *)
Inductive error :=
  | Error (message : string)
  | TypeError (message : string)
  | NoMarketsAvailableForSelectedPairError.

Inductive result (A : Type) :=
  | Ok (a : A)
  | Throw (e : error).
Arguments Ok {A} a.
Arguments Throw {A} e.

(** What the selector does besides computing: console output and the two
    network-bound discovery runs. *)
Inductive event :=
  | ConsoleErrorMessage (message : string)
  | ConsoleErrorObject (err : error)
  | DiscoverV1 (orders : list V1.TradeOrder) (asset : string) (amount : Z)
  | DiscoverV2 (orders : list V2.TradeOrder) (asset : string) (amount : Z).

(** A computation that logs events and either returns or throws; for an
    [async] function [Ok] is a resolved promise and [Throw] a rejected one. *)
Definition M (A : Type) : Type := (list event * result A)%type.

Definition ret {A} (a : A) : M A := ([], Ok a).
Definition throw {A} (e : error) : M A := ([], Throw e).
Definition emit (ev : event) : M unit := ([ev], Ok tt).

Definition bind {A B} (m : M A) (k : A → M B) : M B :=
  match m with
  | (t, Ok a) => let '(t', r) := k a in (t ++ t', r)
  | (t, Throw e) => (t, Throw e)
  end.

(** [try { body } catch (err) { handler }] *)
Definition try_catch {A} (body : M A) (handler : error → M A) : M A :=
  match body with
  | (t, Ok a) => (t, Ok a)
  | (t, Throw e) => let '(t', r) := handler e in (t ++ t', r)
  end.

Declare Scope tdex_scope.
Delimit Scope tdex_scope with tdex.
Notation "'let*' x ':=' m 'in' k" := (bind m (λ x, k))
  (at level 10, x name, m at level 100, k at level 200) : tdex_scope.
Notation "m '>>>' k" := (bind m (λ _, k))
  (at level 90, right associativity) : tdex_scope.

Definition trace {A} (m : M A) : list event := fst m.
Definition outcome {A} (m : M A) : result A := snd m.

Definition isNetworkCall (ev : event) : bool :=
  match ev with
  | DiscoverV1 _ _ _ | DiscoverV2 _ _ _ => true
  | _ => false
  end.

(** ** Best-order selector *)

Section BestOrderSelector.

Variable config_torProxy : string.

(** [createDiscovererV1(orders, combineDiscoveryV1(bestPrice, bestBalance),
    handler).discover({asset, amount})]: the discoverer classes and the
    discovery policies are defined in [v1/] and [v2/] and are parameters
    here; a run either resolves to a ranked list or rejects. *)
Variable discovererV1_discover :
  list V1.TradeOrder → string → Z → result (list V1.TradeOrder).
Variable discovererV2_discover :
  list V2.TradeOrder → string → Z → result (list V2.TradeOrder).

Definition awaitDiscoverV1 (orders : list V1.TradeOrder) (asset : string)
    (sats : Z) : M (list V1.TradeOrder) :=
  ([DiscoverV1 orders asset sats], discovererV1_discover orders asset sats).

Definition awaitDiscoverV2 (orders : list V2.TradeOrder) (asset : string)
    (sats : Z) : M (list V2.TradeOrder) :=
  ([DiscoverV2 orders asset sats], discovererV2_discover orders asset sats).

(** The arrow function returned by [discoverBestOrder], closed over the
    two candidate lists. *)
Definition discoverBestOrder_closure
    (allPossibleOrdersV1 : list V1.TradeOrder)
    (allPossibleOrdersV2 : list V2.TradeOrder)
    (sats : Z) (asset : string) : M (option AnyTradeOrder) :=
  if (sats <=? 0)%Z then
    ret (nullish (OrderV1 <$> head allPossibleOrdersV1)
                 (OrderV2 <$> head allPossibleOrdersV2))
  else
    try_catch
      (let* bestOrdersV1 := awaitDiscoverV1 allPossibleOrdersV1 asset sats in
       let* bestOrdersV2 := awaitDiscoverV2 allPossibleOrdersV2 asset sats in
       if (length bestOrdersV1 =? 0) && (length bestOrdersV2 =? 0)
       then throw (Error "zero best orders found by discoverer")
       else ret (nullish (OrderV2 <$> head bestOrdersV2)
                         (OrderV1 <$> head bestOrdersV1)))%tdex
      (λ err,
         emit (ConsoleErrorObject err) >>>
         ret (OrderV1 <$> head allPossibleOrdersV1))%tdex.

Definition discoverBestOrder
    (markets_v1 : list V1.TDEXMarket) (markets_v2 : list V2.TDEXMarket)
    (sendAsset receiveAsset : option string)
  : M (Z → string → M (option AnyTradeOrder)) :=
  match sendAsset, receiveAsset with
  | Some sendAsset, Some receiveAsset =>
      if String.eqb sendAsset EmptyString
         || String.eqb receiveAsset EmptyString
      then throw (Error "unable to compute orders for selected market")
      else
        let allPossibleOrdersV1 :=
          computeOrdersV1 markets_v1 sendAsset receiveAsset None in
        let allPossibleOrdersV2 :=
          computeOrdersV2 config_torProxy markets_v2 sendAsset receiveAsset
                          None in
        if (length allPossibleOrdersV1 =? 0)
           && (length allPossibleOrdersV2 =? 0)
        then
          (emit (ConsoleErrorMessage
                   ("markets not found for pair " +:+ sendAsset +:+ "-"
                      +:+ receiveAsset)) >>>
           throw NoMarketsAvailableForSelectedPairError)%tdex
        else
          ret (discoverBestOrder_closure allPossibleOrdersV1
                                         allPossibleOrdersV2)
  | _, _ => throw (Error "unable to compute orders for selected market")
  end.

End BestOrderSelector.

(** ** Buffers and their hexadecimal rendering *)

Definition hexDigit (n : N) : ascii :=
  match n with
  | 0 => "0" | 1 => "1" | 2 => "2" | 3 => "3" | 4 => "4" | 5 => "5"
  | 6 => "6" | 7 => "7" | 8 => "8" | 9 => "9" | 10 => "a" | 11 => "b"
  | 12 => "c" | 13 => "d" | 14 => "e" | _ => "f"
  end%N%char.

(** [buf.toString('hex')]: two lower-case digits per byte. *)
Definition byteToHex (b : Byte.byte) : string :=
  let n := Byte.to_N b in
  String (hexDigit (n / 16)) (String (hexDigit (n mod 16)) EmptyString).

Definition toHex (buf : list Byte.byte) : string :=
  foldr (λ b acc, byteToHex b +:+ acc) EmptyString buf.

Definition hexValue (c : ascii) : option N :=
  let n := N_of_ascii c in
  if (48 <=? n)%N && (n <=? 57)%N then Some (n - 48)%N
  else if (97 <=? n)%N && (n <=? 102)%N then Some (n - 87)%N
  else if (65 <=? n)%N && (n <=? 70)%N then Some (n - 55)%N
  else None.

(** [Buffer.from(s, 'hex')]: one byte per pair of hexadecimal digits, read
    up to the first pair that is not one; a trailing single character is
    dropped. *)
Fixpoint fromHex (s : string) : list Byte.byte :=
  match s with
  | String hi (String lo rest) =>
      match hexValue hi, hexValue lo with
      | Some h, Some l =>
          byte_of_ascii (ascii_of_N (16 * h + l)) :: fromHex rest
      | _, _ => []
      end
  | _ => []
  end.

(** [Buffer.from(s, 'hex').reverse().toString('hex')] *)
Definition reverseHex (s : string) : string := toHex (rev (fromHex s)).

(** ** Confidential input resolver *)

Record Outpoint := mkOutpoint {
  txid : string;
  vout : N
}.

(** Modelled from the spec: [outpointToString] is defined in
    [utils/helpers]; section 6 describes the history key as the canonical
    "txid:vout" string. The resolver below takes the function as a
    parameter, and this one instantiates it in the examples. *)
Definition spec_outpointToString (o : Outpoint) : string :=
  txid o +:+ ":" +:+ pretty (vout o).

Record WitnessUtxo := mkWitnessUtxo {
  script : list Byte.byte
}.

(** An input of a [Pset]: the fields the resolver reads. *)
Record PsetInput := mkPsetInput {
  previousTxid : list Byte.byte;
  previousTxIndex : N;
  witnessUtxo : option WitnessUtxo
}.

Record Pset := mkPset {
  inputs : list PsetInput
}.

(** [value] is an amount in satoshis, a natural number, so that
    [value.toString()] is its decimal rendering. *)
Module BlindingData.
Record t := mk {
  asset : string;
  value : N;
  assetBlindingFactor : string;
  valueBlindingFactor : string
}.
End BlindingData.

(** An entry of the wallet's output history. *)
Record UnblindedOutput := mkUnblindedOutput {
  blindingData : option BlindingData.t
}.

Module UnblindedInput.
Record t := mk {
  asset : string;
  assetBlinder : string;
  amountBlinder : string;
  amount : string;
  index : nat
}.
End UnblindedInput.

Section ConfidentialInputResolver.

(** [ScriptDetails] of [store/walletStore]; the resolver only tests its
    presence. *)
Context {ScriptDetails : Type}.

(** [outpointToString] of [utils/helpers]. *)
Variable outpointToString : Outpoint → string.

(** [useWalletStore.getState()], read-only during a call. *)
Record WalletState := mkWalletState {
  scriptDetails : gmap string ScriptDetails;
  outputHistory : gmap string UnblindedOutput
}.

(** [arr[i]] followed by a property access: a [TypeError] when [i] is out
    of range. *)
Definition at_index {A} (arr : list A) (i : nat) : result A :=
  match arr !! i with
  | Some x => Ok x
  | None => Throw (TypeError "Cannot read properties of undefined")
  end.

(** A loop whose body may throw. *)
Definition for_of {A S} (body : S → A → result S) (l : list A) (init : S)
  : result S :=
  fold_left (λ acc x, match acc with
                      | Ok s => body s x
                      | Throw e => Throw e
                      end) l (Ok init).

(** [input.witnessUtxo?.script] rendered in hex when present. *)
Definition inputScriptHex (input : PsetInput) : option string :=
  (λ w, toHex (script w)) <$> witnessUtxo input.

Definition collectScriptsDetails (state : WalletState)
    (inputsScripts : list string) : gmap string ScriptDetails :=
  fold_left (λ scriptsDetails script,
               match scriptDetails state !! script with
               | Some details => <[script := details]> scriptsDetails
               | None => scriptsDetails
               end) inputsScripts ∅.

Definition collectInputIndexes (scriptsDetails : gmap string ScriptDetails)
    (pset : Pset) : result (list nat) :=
  for_of (λ inputIndexes i,
            match at_index (inputs pset) i with
            | Throw e => Throw e
            | Ok input =>
                match witnessUtxo input with
                | None => Ok inputIndexes
                | Some w =>
                    match scriptsDetails !! toHex (script w) with
                    | Some _ => Ok (inputIndexes ++ [i])
                    | None => Ok inputIndexes
                    end
                end
            end) (seq 0 (length (inputs pset))) [].

Definition historyKey (input : PsetInput) : string :=
  outpointToString
    (mkOutpoint (toHex (rev (previousTxid input))) (previousTxIndex input)).

Definition unblindInput (state : WalletState) (pset : Pset)
    (unblindedInputs : list UnblindedInput.t) (inputIndex : nat)
  : result (list UnblindedInput.t) :=
  match at_index (inputs pset) inputIndex with
  | Throw e => Throw e
  | Ok input =>
      match outputHistory state !! historyKey input with
      | None => Ok unblindedInputs
      | Some unblindOutput =>
          match blindingData unblindOutput with
          | None => Ok unblindedInputs
          | Some data =>
              Ok (unblindedInputs ++
                  [UnblindedInput.mk
                     (BlindingData.asset data)
                     (reverseHex (BlindingData.assetBlindingFactor data))
                     (reverseHex (BlindingData.valueBlindingFactor data))
                     (pretty (BlindingData.value data))
                     inputIndex])
          end
      end
  end.

Definition psetToUnblindedInputs (state : WalletState) (pset : Pset)
  : result (list UnblindedInput.t) :=
  let inputsScripts := omap inputScriptHex (inputs pset) in
  let scriptsDetails := collectScriptsDetails state inputsScripts in
  match collectInputIndexes scriptsDetails pset with
  | Throw e => Throw e
  | Ok inputIndexes => for_of (unblindInput state pset) inputIndexes []
  end.

(** *** What the specification says about the resolver *)

(** The input at position [i] is wallet-owned: the script of the output it
    references is a key of the wallet's script index. *)
Definition walletOwned (state : WalletState) (pset : Pset) (i : nat) : Prop :=
  ∃ input w,
    inputs pset !! i = Some input
    ∧ witnessUtxo input = Some w
    ∧ is_Some (scriptDetails state !! toHex (script w)).

(** The wallet's output history records blinding data [data] for the
    outpoint spent by the input at position [i]. *)
Definition cachedBlindingData (state : WalletState) (pset : Pset) (i : nat)
    (data : BlindingData.t) : Prop :=
  ∃ input unblindOutput,
    inputs pset !! i = Some input
    ∧ outputHistory state !! historyKey input = Some unblindOutput
    ∧ blindingData unblindOutput = Some data.

(** The outpoint spent by the input at position [i] is absent from the
    history, or its entry carries no blinding data. *)
Definition blindingDataMissing (state : WalletState) (pset : Pset) (i : nat)
  : Prop :=
  ∃ input,
    inputs pset !! i = Some input
    ∧ (outputHistory state !! historyKey input = None
       ∨ ∃ unblindOutput,
           outputHistory state !! historyKey input = Some unblindOutput
           ∧ blindingData unblindOutput = None).

(** Section 3 of the specification: the indices of the result are unique
    and are exactly the positions of the wallet-owned inputs. *)
Definition indexesMatchOwnedInputs (state : WalletState) (pset : Pset)
    (unblindedInputs : list UnblindedInput.t) : Prop :=
  NoDup (map UnblindedInput.index unblindedInputs)
  ∧ ∀ i, In i (map UnblindedInput.index unblindedInputs)
         ↔ walletOwned state pset i.

(** *** Executable counterparts, used to describe the result *)

Definition ownedInput (state : WalletState) (input : PsetInput) : bool :=
  match witnessUtxo input with
  | Some w => bool_decide (is_Some (scriptDetails state !! toHex (script w)))
  | None => false
  end.

Definition ownedAt (state : WalletState) (pset : Pset) (i : nat) : bool :=
  from_option (ownedInput state) false (inputs pset !! i).

(** The entry pushed for the input at [inputIndex] with blinding data
    [data]. *)
Definition unblindedInputOf (inputIndex : nat) (data : BlindingData.t)
  : UnblindedInput.t :=
  UnblindedInput.mk
    (BlindingData.asset data)
    (reverseHex (BlindingData.assetBlindingFactor data))
    (reverseHex (BlindingData.valueBlindingFactor data))
    (pretty (BlindingData.value data))
    inputIndex.

Definition entryAt (state : WalletState) (pset : Pset) (i : nat)
  : option UnblindedInput.t :=
  match inputs pset !! i with
  | Some input =>
      match outputHistory state !! historyKey input with
      | Some unblindOutput =>
          match blindingData unblindOutput with
          | Some data => Some (unblindedInputOf i data)
          | None => None
          end
      | None => None
      end
  | None => None
  end.

End ConfidentialInputResolver.

(** ** Statements shared by the properties below *)

(** A call yields at most one order per market: the contribution of each
    market of the input has at most one element, and two orders of the
    result on the same market have the same direction. *)
Definition oneOrderPerMarketV1 (markets : list V1.TDEXMarket)
    (sentAsset receivedAsset : string) (torProxy : option string) : Prop :=
  (∀ m, In m markets →
        length (computeOrdersV1 [m] sentAsset receivedAsset torProxy) ≤ 1)
  ∧ (∀ o1 o2,
       In o1 (computeOrdersV1 markets sentAsset receivedAsset torProxy) →
       In o2 (computeOrdersV1 markets sentAsset receivedAsset torProxy) →
       V1.market o1 = V1.market o2 → V1.type o1 = V1.type o2).

Definition oneOrderPerMarketV2 (cfg : string) (markets : list V2.TDEXMarket)
    (sentAsset receivedAsset : string) (torProxy : option string) : Prop :=
  (∀ m, In m markets →
        length (computeOrdersV2 cfg [m] sentAsset receivedAsset torProxy) ≤ 1)
  ∧ (∀ o1 o2,
       In o1 (computeOrdersV2 cfg markets sentAsset receivedAsset torProxy) →
       In o2 (computeOrdersV2 cfg markets sentAsset receivedAsset torProxy) →
       V2.market o1 = V2.market o2 → V2.type o1 = V2.type o2).

(** [!asset] on an optional string: [undefined] and the empty string. *)
Definition missingAsset (asset : option string) : Prop :=
  asset = None ∨ asset = Some EmptyString.

(** ** Sample data *)

Definition sampleProvider : TDEXProvider :=
  mkProvider "provider.example" "https://provider.example:9945".

Definition sampleTorProxy : string := "https://proxy.tdex.network".

(** A V1 market trading [lbtc] against [usdt]. *)
Definition sampleMarketV1 : V1.TDEXMarket :=
  V1.mkMarket sampleProvider "lbtc" "usdt" [].

(** A V2 market trading [lbtc] against [usdt]. *)
Definition sampleMarketV2 : V2.TDEXMarket :=
  V2.mkMarket sampleProvider "lbtc" "usdt" [].

(** A market whose base and quote assets are the same asset. *)
Definition sameAssetMarketV1 : V1.TDEXMarket :=
  V1.mkMarket sampleProvider "lbtc" "lbtc" [].

(** Discoverers all of whose preview requests failed: the ranking is
    empty (section 4.4 of the specification). *)
Definition emptyRankingV1 (orders : list V1.TradeOrder) (asset : string)
    (amount : Z) : result (list V1.TradeOrder) := Ok [].

Definition emptyRankingV2 (orders : list V2.TradeOrder) (asset : string)
    (amount : Z) : result (list V2.TradeOrder) := Ok [].

(** Discoverers that keep every candidate, in the order given. *)
Definition keepAllV1 (orders : list V1.TradeOrder) (asset : string)
    (amount : Z) : result (list V1.TradeOrder) := Ok orders.

Definition keepAllV2 (orders : list V2.TradeOrder) (asset : string)
    (amount : Z) : result (list V2.TradeOrder) := Ok orders.

(** A wallet that knows the scripts [aa] and [cc], and holds blinding data
    for two outpoints. *)
Definition sampleWallet : @WalletState unit :=
  mkWalletState
    {[ "aa"%string := tt; "cc"%string := tt ]}
    {[ "0201:0"%string :=
         mkUnblindedOutput
           (Some (BlindingData.mk "lbtc" 1000 "0a0b" "0c0d"));
       "0605:2"%string :=
         mkUnblindedOutput
           (Some (BlindingData.mk "usdt" 5 "1a1b" "1c1d"));
       "0807:7"%string := mkUnblindedOutput None ]}.

(** Three inputs: the first and the third spend outputs of the wallet with
    cached blinding data, the second is foreign. *)
Definition samplePset : Pset :=
  mkPset
    [mkPsetInput [x01; x02] 0 (Some (mkWitnessUtxo [xaa]));
     mkPsetInput [x03; x04] 1 (Some (mkWitnessUtxo [xbb]));
     mkPsetInput [x05; x06] 2 (Some (mkWitnessUtxo [xcc]))].

(** Two wallet-owned inputs; the history has an entry without blinding
    data for the first and the full data for the second. *)
Definition partlyCachedPset : Pset :=
  mkPset
    [mkPsetInput [x07; x08] 7 (Some (mkWitnessUtxo [xaa]));
     mkPsetInput [x05; x06] 2 (Some (mkWitnessUtxo [xcc]))].

(** One wallet-owned input whose outpoint is not in the history. *)
Definition uncachedPset : Pset :=
  mkPset [mkPsetInput [x09; x0a] 4 (Some (mkWitnessUtxo [xaa]))].

(** ** Tradable assets *)

(** [tradable.includes(x)] *)
Definition includes (arr : list string) (x : string) : bool :=
  existsb (String.eqb x) arr.

(** The body shared by the two loops of [getTradablesAssets], on the asset
    pair of the market at hand. *)
Definition getTradablesAssets_step (asset : string)
    (tradable : list string) (baseAsset quoteAsset : string) : list string :=
  let tradable :=
    if String.eqb asset baseAsset && negb (includes tradable quoteAsset)
    then tradable ++ [quoteAsset]
    else tradable in
  if String.eqb asset quoteAsset && negb (includes tradable baseAsset)
  then tradable ++ [baseAsset]
  else tradable.

Definition getTradablesAssets (markets_v1 : list V1.TDEXMarket)
    (markets_v2 : list V2.TDEXMarket) (asset : string) : list string :=
  let tradable :=
    fold_left (λ tradable market,
                 getTradablesAssets_step asset tradable
                   (V1.baseAsset market) (V1.quoteAsset market))
              markets_v1 [] in
  fold_left (λ tradable market,
               getTradablesAssets_step asset tradable
                 (V2.baseAsset market) (V2.quoteAsset market))
            markets_v2 tradable.

(** A market trades [asset] against [other], in either role. *)
Definition pairsWith (asset other baseAsset quoteAsset : string) : Prop :=
  (asset = baseAsset ∧ other = quoteAsset)
  ∨ (asset = quoteAsset ∧ other = baseAsset).

(** The same order in the opposite direction. *)
Definition oppositeV1 (o : V1.TradeOrder) : V1.TradeOrder :=
  V1.mkOrder (V1.market o)
    (match V1.type o with V1.BUY => V1.SELL | V1.SELL => V1.BUY end)
    (V1.traderClient o).

Definition oppositeV2 (o : V2.TradeOrder) : V2.TradeOrder :=
  V2.mkOrder (V2.market o)
    (match V2.type o with V2.BUY => V2.SELL | V2.SELL => V2.BUY end)
    (V2.traderClient o).

(** A V1 discoverer whose run rejects. *)
Definition rejectingV1 (orders : list V1.TradeOrder) (asset : string)
    (amount : Z) : result (list V1.TradeOrder) :=
  Throw (Error "connection refused").

(** ** Clear-text Tor proxy URL *)

(** [s.split(sep)] for a one-character separator: the pieces between the
    separators, of which there is always at least one. *)
Fixpoint String_split (sep : ascii) (s : string) : list string :=
  match s with
  | EmptyString => [EmptyString]
  | String c rest =>
      if Ascii.eqb c sep then EmptyString :: String_split sep rest
      else match String_split sep rest with
           | piece :: pieces => String c piece :: pieces
           | [] => [String c EmptyString]
           end
  end.

(** [arr.join(sep)] *)
Fixpoint Array_join (sep : string) (arr : list string) : string :=
  match arr with
  | [] => EmptyString
  | [piece] => piece
  | piece :: rest => piece +:+ sep +:+ Array_join sep rest
  end.

(** [arr.pop()], as to what it leaves in the array. *)
Definition Array_pop {A} (arr : list A) : list A := removelast arr.

(** A [URL], as to the one property read here. *)
Record URL := mkURL {
  hostname : string
}.

Definition getClearTextTorProxyUrl (torProxyEndpoint : string) (url : URL)
  : string :=
  let splitted := String_split "." (hostname url) in
  let splitted := Array_pop splitted in
  let onionPubKey := Array_join "." splitted in
  torProxyEndpoint +:+ "/" +:+ onionPubKey.

(** The string has no occurrence of the character. *)
Fixpoint freeOf (sep : ascii) (s : string) : bool :=
  match s with
  | EmptyString => true
  | String c rest => negb (Ascii.eqb c sep) && freeOf sep rest
  end.

(** ** Trade preview *)

Module PreviewRequestV1.
Record t := mk {
  market : V1.TDEXMarket;
  type : V1.TradeType;
  amount : string;
  asset : string
}.
End PreviewRequestV1.

Module PreviewRequestV2.
Record t := mk {
  market : V2.TDEXMarket;
  type : V2.TradeType;
  amount : string;
  asset : string;
  feeAsset : string
}.
End PreviewRequestV2.

(** The requests sent by the preview functions, with the client they are
    sent through. *)
Inductive previewEvent :=
  | PreviewTradeV1 (client : TraderClient) (request : PreviewRequestV1.t)
  | PreviewTradeV2 (client : TraderClient) (request : PreviewRequestV2.t).

Section TradePreview.

(** [Preview] of the two protobuf packages. *)
Context {PreviewV1 PreviewV2 : Type}.

(** [traderClient.previewTrade(request)] of [v1/client.web] and
    [v2/client.web]: resolves to the list of previews or rejects. *)
Variable traderClientV1_previewTrade :
  TraderClient → PreviewRequestV1.t → result (list PreviewV1).
Variable traderClientV2_previewTrade :
  TraderClient → PreviewRequestV2.t → result (list PreviewV2).

Definition previewTradeV1 (order : V1.TradeOrder) (sats : Z) (asset : string)
  : list previewEvent * result (option PreviewV1) :=
  if (sats <=? 0)%Z then ([], Ok None)
  else
    let request :=
      PreviewRequestV1.mk (V1.market order) (V1.type order)
                          (pretty sats) asset in
    ([PreviewTradeV1 (V1.traderClient order) request],
     match traderClientV1_previewTrade (V1.traderClient order) request with
     | Ok response => Ok (head response)
     | Throw e => Throw e
     end).

Definition previewTradeV2 (order : V2.TradeOrder) (sats : Z) (asset : string)
  : list previewEvent * result (option PreviewV2) :=
  if (sats <=? 0)%Z then ([], Ok None)
  else
    let request :=
      PreviewRequestV2.mk (V2.market order) (V2.type order)
                          (pretty sats) asset
                          (V2.quoteAsset (V2.market order)) in
    ([PreviewTradeV2 (V2.traderClient order) request],
     match traderClientV2_previewTrade (V2.traderClient order) request with
     | Ok response => Ok (head response)
     | Throw e => Throw e
     end).

End TradePreview.

(** ** Trade executor *)

(** What [makeTradeV1] and [makeTradeV2] reject with: an error that passes
    through as it is, or [new AppError(code, message)]. *)
Inductive tradeFailure :=
  | Uncaught (e : error)
  | AppError (code : Z) (message : string).

Inductive tradeOutcome :=
  | Broadcast (txid : string)
  | Rejected (failure : tradeFailure).

(** The options object given to the [Trade] constructor. *)
Record TradeOpts (CoinSelectionForTrade SignerInterface : Type) :=
  mkTradeOpts {
    opts_explorerUrl : string;
    opts_providerUrl : string;
    opts_coinSelectionForTrade : CoinSelectionForTrade;
    opts_chain : string;
    opts_masterBlindingKey : string;
    opts_signer : SignerInterface
  }.
Arguments mkTradeOpts {_ _} _ _ _ _ _ _.
Arguments opts_providerUrl {_ _} _.

(** The argument of [trader.buy] and [trader.sell]: the amount and asset
    known to the user, the market of the order and the two addresses. *)
Record TradeArgs (Market ScriptDetails : Type) := mkTradeArgs {
  args_amount : Z;
  args_asset : string;
  args_market : Market;
  args_addressForSwapOutput : ScriptDetails;
  args_addressForChangeOutput : ScriptDetails
}.
Arguments mkTradeArgs {_ _} _ _ _ _ _.

Inductive tradeEvent (Args : Type) :=
  | TradeBuy (args : Args)
  | TradeSell (args : Args)
  | ConsoleErrorTrade (err : error).
Arguments TradeBuy {_} _.
Arguments TradeSell {_} _.
Arguments ConsoleErrorTrade {_} _.

Definition isTradeCall {Args} (ev : tradeEvent Args) : bool :=
  match ev with
  | TradeBuy _ | TradeSell _ => true
  | ConsoleErrorTrade _ => false
  end.

(** [!txid] on what a trade flow resolves to. *)
Definition noTxid (txid : option string) : bool :=
  match txid with
  | Some t => String.eqb t EmptyString
  | None => true
  end.

Section TradeExecutor.

Context {CoinSelectionForTrade SignerInterface ScriptDetails : Type}.
Context {TradeV1 TradeV2 : Type}.

(** The message of the constant [NoMarketsAvailableForSelectedPairError]
    of [utils/errors]. *)
Variable noMarketsMessage : string.

(** [(err as Error).message] *)
Definition errorMessage (err : error) : string :=
  match err with
  | Error message => message
  | TypeError message => message
  | NoMarketsAvailableForSelectedPairError => noMarketsMessage
  end.

(** The classes [Trade] of [v1/trade.web] and [v2/trade.web]: the
    constructor, which may throw, and the two flows, which resolve to a
    transaction id, possibly absent, or reject. *)
Variable TradeV1_new :
  TradeOpts CoinSelectionForTrade SignerInterface → option string
  → result TradeV1.
Variable TradeV1_buy TradeV1_sell :
  TradeV1 → TradeArgs V1.TDEXMarket ScriptDetails → result (option string).
Variable TradeV2_new :
  TradeOpts CoinSelectionForTrade SignerInterface → option string
  → result TradeV2.
Variable TradeV2_buy TradeV2_sell :
  TradeV2 → TradeArgs V2.TDEXMarket ScriptDetails → result (option string).

Definition makeTradeV1 (order : V1.TradeOrder)
    (known_amount : Z) (known_asset : string)
    (explorerLiquidAPI : string)
    (coinSelectionForTrade : CoinSelectionForTrade)
    (signer : SignerInterface) (masterBlindingKey : string)
    (network : string)
    (addressForChangeOutput addressForSwapOutput : ScriptDetails)
    (torProxy : option string)
  : list (tradeEvent (TradeArgs V1.TDEXMarket ScriptDetails)) * tradeOutcome :=
  match TradeV1_new
          (mkTradeOpts explorerLiquidAPI
             (providerUrl (V1.traderClient order))
             coinSelectionForTrade network masterBlindingKey signer)
          torProxy with
  | Throw e => ([], Rejected (Uncaught e))
  | Ok trader =>
      let args :=
        mkTradeArgs known_amount known_asset (V1.market order)
                    addressForSwapOutput addressForChangeOutput in
      (* try *)
      let '(call, promise) :=
        match V1.type order with
        | V1.BUY => (TradeBuy args, TradeV1_buy trader args)
        | V1.SELL => (TradeSell args, TradeV1_sell trader args)
        end in
      let attempt : result string :=
        match promise with
        | Throw e => Throw e
        | Ok txid =>
            match txid with
            | Some t => if noTxid txid
                        then Throw (Error "Transaction not broadcasted")
                        else Ok t
            | None => Throw (Error "Transaction not broadcasted")
            end
        end in
      match attempt with
      | Ok txid => ([call], Broadcast txid)
      | Throw err =>
          (* catch *)
          ([call; ConsoleErrorTrade err],
           Rejected (AppError 0 (errorMessage err)))
      end
  end.

Definition makeTradeV2 (order : V2.TradeOrder)
    (known_amount : Z) (known_asset : string)
    (explorerLiquidAPI : string)
    (coinSelectionForTrade : CoinSelectionForTrade)
    (signer : SignerInterface) (masterBlindingKey : string)
    (network : string)
    (addressForChangeOutput addressForSwapOutput : ScriptDetails)
    (torProxy : option string)
  : list (tradeEvent (TradeArgs V2.TDEXMarket ScriptDetails)) * tradeOutcome :=
  match TradeV2_new
          (mkTradeOpts explorerLiquidAPI
             (providerUrl (V2.traderClient order))
             coinSelectionForTrade network masterBlindingKey signer)
          torProxy with
  | Throw e => ([], Rejected (Uncaught e))
  | Ok trader =>
      let args :=
        mkTradeArgs known_amount known_asset (V2.market order)
                    addressForSwapOutput addressForChangeOutput in
      (* try *)
      let '(call, promise) :=
        match V2.type order with
        | V2.BUY => (TradeBuy args, TradeV2_buy trader args)
        | V2.SELL => (TradeSell args, TradeV2_sell trader args)
        end in
      let attempt : result string :=
        match promise with
        | Throw e => Throw e
        | Ok txid =>
            match txid with
            | Some t => if noTxid txid
                        then Throw (Error "Transaction not broadcasted")
                        else Ok t
            | None => Throw (Error "Transaction not broadcasted")
            end
        end in
      match attempt with
      | Ok txid => ([call], Broadcast txid)
      | Throw err =>
          (* catch *)
          ([call; ConsoleErrorTrade err],
           Rejected (AppError 0 (errorMessage err)))
      end
  end.

End TradeExecutor.

(** A preview client that answers every request with no preview, and a
    trade flow whose constructor accepts every option, whose [buy] is
    broadcast and whose [sell] resolves without a transaction id. *)
Definition noPreviewV1 (client : TraderClient)
    (request : PreviewRequestV1.t) : result (list Z) := Ok [].

Definition noPreviewV2 (client : TraderClient)
    (request : PreviewRequestV2.t) : result (list Z) := Ok [].

Definition sampleTradeNew
    (opts : TradeOpts unit unit) (torProxy : option string) : result unit :=
  Ok tt.

Definition sampleBuyV1 (trader : unit)
    (args : TradeArgs V1.TDEXMarket unit) : result (option string) :=
  Ok (Some "9f2c"%string).

Definition sampleSellV1 (trader : unit)
    (args : TradeArgs V1.TDEXMarket unit) : result (option string) :=
  Ok None.

Definition sampleBuyV2 (trader : unit)
    (args : TradeArgs V2.TDEXMarket unit) : result (option string) :=
  Ok (Some "9f2c"%string).

Definition sampleSellV2 (trader : unit)
    (args : TradeArgs V2.TDEXMarket unit) : result (option string) :=
  Ok None.

Definition sampleBuyOrderV1 : V1.TradeOrder :=
  V1.mkOrder sampleMarketV1 V1.BUY
    (mkTraderClient "https://provider.example:9945" sampleTorProxy).


Definition sampleBuyOrderV2 : V2.TradeOrder :=
  V2.mkOrder sampleMarketV2 V2.BUY
    (mkTraderClient "https://provider.example:9945" sampleTorProxy).

Definition sampleSellOrderV2 : V2.TradeOrder :=
  V2.mkOrder sampleMarketV2 V2.SELL
    (mkTraderClient "https://provider.example:9945" sampleTorProxy).

(** ** Market catalog builder *)

(** [Market] of the protobuf packages: the asset pair. *)
Record Market := mkRawMarket {
  market_baseAsset : string;
  market_quoteAsset : string
}.

(** An element of the answer of [client.listMarkets()]: the market, which
    may be missing, and its fee fields (none when [fee] is undefined). *)
Record MarketWithFee := mkMarketWithFee {
  item_market : option Market;
  item_fee : list (string * Z)
}.

Inductive catalogEvent :=
  | ListMarkets (client : TraderClient)
  | GetMarketBalance (client : TraderClient) (market : Market).

Definition isBalanceRequest (ev : catalogEvent) : bool :=
  match ev with
  | GetMarketBalance _ _ => true
  | ListMarkets _ => false
  end.

Section MarketCatalogBuilder.

Variable config_torProxy : string.

(** The methods of the trader clients of [v1/client.web] and
    [v2/client.web]. For V1 the answer of [getMarketBalance] is read
    through [?.balance]; in both versions what is spread into the market is
    a possibly absent group of balance fields. *)
Variable clientV1_listMarkets : TraderClient → result (list MarketWithFee).
Variable clientV1_getMarketBalance :
  TraderClient → Market → result (option (list (string * Z))).
Variable clientV2_listMarkets : TraderClient → result (list MarketWithFee).
Variable clientV2_getMarketBalance :
  TraderClient → Market → result (option (list (string * Z))).

(** [{ provider: p, ...market, ...balance, ...fee }]; the balance and fee
    groups hold no field named [provider], [baseAsset] or [quoteAsset], so
    the spreads leave the provider and the asset pair as they are. *)
Definition mergeMarketV1 (p : TDEXProvider) (market : Market)
    (balance : option (list (string * Z))) (fee : list (string * Z))
  : V1.TDEXMarket :=
  V1.mkMarket p (market_baseAsset market) (market_quoteAsset market)
              (default [] balance ++ fee).

Definition mergeMarketV2 (p : TDEXProvider) (market : Market)
    (balance : option (list (string * Z))) (fee : list (string * Z))
  : V2.TDEXMarket :=
  V2.mkMarket p (market_baseAsset market) (market_quoteAsset market)
              (default [] balance ++ fee).

(** The loop of [getMarketsFromProviderV1]: one awaited balance request per
    listed market, in turn; a rejection ends the call. *)
Fixpoint getMarketsFromProviderV1_loop (client : TraderClient)
    (p : TDEXProvider) (markets : list MarketWithFee)
    (results : list V1.TDEXMarket)
  : list catalogEvent * result (list V1.TDEXMarket) :=
  match markets with
  | [] => ([], Ok results)
  | item :: rest =>
      match item_market item with
      | None => getMarketsFromProviderV1_loop client p rest results
      | Some market =>
          match clientV1_getMarketBalance client market with
          | Throw e => ([GetMarketBalance client market], Throw e)
          | Ok balance =>
              let '(t, r) :=
                getMarketsFromProviderV1_loop client p rest
                  (results ++ [mergeMarketV1 p market balance (item_fee item)])
              in (GetMarketBalance client market :: t, r)
          end
      end
  end.

Definition getMarketsFromProviderV1 (p : TDEXProvider)
    (torProxy : option string)
  : list catalogEvent * result (list V1.TDEXMarket) :=
  let client := mkTraderClient (endpoint p) (default config_torProxy torProxy) in
  match clientV1_listMarkets client with
  | Throw e => ([ListMarkets client], Throw e)
  | Ok markets =>
      let '(t, r) := getMarketsFromProviderV1_loop client p markets [] in
      (ListMarkets client :: t, r)
  end.

Fixpoint getMarketsFromProviderV2_loop (client : TraderClient)
    (p : TDEXProvider) (markets : list MarketWithFee)
    (results : list V2.TDEXMarket)
  : list catalogEvent * result (list V2.TDEXMarket) :=
  match markets with
  | [] => ([], Ok results)
  | item :: rest =>
      match item_market item with
      | None => getMarketsFromProviderV2_loop client p rest results
      | Some market =>
          match clientV2_getMarketBalance client market with
          | Throw e => ([GetMarketBalance client market], Throw e)
          | Ok balance =>
              let '(t, r) :=
                getMarketsFromProviderV2_loop client p rest
                  (results ++ [mergeMarketV2 p market balance (item_fee item)])
              in (GetMarketBalance client market :: t, r)
          end
      end
  end.

Definition getMarketsFromProviderV2 (p : TDEXProvider)
    (torProxy : option string)
  : list catalogEvent * result (list V2.TDEXMarket) :=
  let client := mkTraderClient (endpoint p) (default config_torProxy torProxy) in
  match clientV2_listMarkets client with
  | Throw e => ([ListMarkets client], Throw e)
  | Ok markets =>
      let '(t, r) := getMarketsFromProviderV2_loop client p markets [] in
      (ListMarkets client :: t, r)
  end.

End MarketCatalogBuilder.

(** A provider listing two markets and one entry without market, and
    answering every balance request. *)
Definition sampleListMarkets (client : TraderClient)
  : result (list MarketWithFee) :=
  Ok [mkMarketWithFee (Some (mkRawMarket "lbtc" "usdt")) [];
      mkMarketWithFee None [];
      mkMarketWithFee (Some (mkRawMarket "lbtc" "lcad")) []].

Definition sampleGetMarketBalance (client : TraderClient) (market : Market)
  : result (option (list (string * Z))) :=
  Ok (Some [("baseAmount"%string, 1000%Z); ("quoteAmount"%string, 500%Z)]).

(** * Properties *)

(** ** Order computer *)

Lemma eqb_and_decide (a b c d : string) :
  String.eqb a b && String.eqb c d = bool_decide (a = b ∧ c = d).
Proof.
  destruct (String.eqb_spec a b), (String.eqb_spec c d);
    simpl; symmetry;
    first [ by apply bool_decide_eq_true_2
          | apply bool_decide_eq_false_2; tauto ].
Qed.

(** One turn of the loop appends what the market gives rise to. *)
Lemma computeOrdersV1_step_app s r p trades m :
  computeOrdersV1_step s r p trades m
  = trades ++ spec_ordersOfMarketV1 s r p m.
Proof.
  unfold computeOrdersV1_step, spec_ordersOfMarketV1.
  rewrite !eqb_and_decide.
  repeat case_bool_decide; simpl; by rewrite <- ?app_assoc, ?app_nil_r.
Qed.

Lemma computeOrdersV2_step_app cfg s r p trades m :
  computeOrdersV2_step cfg s r p trades m
  = trades ++ spec_ordersOfMarketV2 cfg s r p m.
Proof.
  unfold computeOrdersV2_step, spec_ordersOfMarketV2.
  rewrite !eqb_and_decide.
  repeat case_bool_decide; simpl; by rewrite <- ?app_assoc, ?app_nil_r.
Qed.

Lemma computeOrdersV1_loop s r p markets : ∀ trades,
  fold_left (computeOrdersV1_step s r p) markets trades
  = trades ++ flat_map (spec_ordersOfMarketV1 s r p) markets.
Proof.
  induction markets as [|m markets IH]; intros trades; simpl.
  - by rewrite app_nil_r.
  - by rewrite IH, computeOrdersV1_step_app, <- app_assoc.
Qed.

Lemma computeOrdersV2_loop cfg s r p markets : ∀ trades,
  fold_left (computeOrdersV2_step cfg s r p) markets trades
  = trades ++ flat_map (spec_ordersOfMarketV2 cfg s r p) markets.
Proof.
  induction markets as [|m markets IH]; intros trades; simpl.
  - by rewrite app_nil_r.
  - by rewrite IH, computeOrdersV2_step_app, <- app_assoc.
Qed.

Lemma computeOrdersV1_flat_map markets s r p :
  computeOrdersV1 markets s r p
  = flat_map (spec_ordersOfMarketV1 s r p) markets.
Proof. unfold computeOrdersV1. by rewrite computeOrdersV1_loop. Qed.

Lemma computeOrdersV2_flat_map cfg markets s r p :
  computeOrdersV2 cfg markets s r p
  = flat_map (spec_ordersOfMarketV2 cfg s r p) markets.
Proof. unfold computeOrdersV2. by rewrite computeOrdersV2_loop. Qed.

(** The call on a single market is that market's contribution. *)
Lemma computeOrdersV1_single m s r p :
  computeOrdersV1 [m] s r p = spec_ordersOfMarketV1 s r p m.
Proof. rewrite computeOrdersV1_flat_map. simpl. by rewrite app_nil_r. Qed.

Lemma computeOrdersV2_single cfg m s r p :
  computeOrdersV2 cfg [m] s r p = spec_ordersOfMarketV2 cfg s r p m.
Proof. rewrite computeOrdersV2_flat_map. simpl. by rewrite app_nil_r. Qed.

(** Every order of the result comes from a market of the input whose pair
    matches in the direction of the order. *)
Lemma computeOrdersV1_In markets s r p o :
  In o (computeOrdersV1 markets s r p) ↔
  In (V1.market o) markets
  ∧ V1.traderClient o
    = createTraderClientV1 (endpoint (V1.provider (V1.market o))) p
  ∧ match V1.type o with
    | V1.SELL => s = V1.baseAsset (V1.market o)
                 ∧ r = V1.quoteAsset (V1.market o)
    | V1.BUY => s = V1.quoteAsset (V1.market o)
                ∧ r = V1.baseAsset (V1.market o)
    end.
Proof.
  rewrite computeOrdersV1_flat_map, in_flat_map. split.
  - intros (m & Hm & Ho). unfold spec_ordersOfMarketV1 in Ho.
    apply in_app_or in Ho.
    destruct Ho as [Ho|Ho]; case_bool_decide; simpl in Ho;
      try tauto; destruct Ho as [<-|[]]; simpl; tauto.
  - intros (Hm & Hc & Ht). exists (V1.market o). split; [done|].
    unfold spec_ordersOfMarketV1. apply in_or_app.
    destruct o as [m [] c]; simpl in *; subst c;
      [right|left]; rewrite bool_decide_eq_true_2 by done; by left.
Qed.

Lemma computeOrdersV2_In cfg markets s r p o :
  In o (computeOrdersV2 cfg markets s r p) ↔
  In (V2.market o) markets
  ∧ V2.traderClient o
    = createTraderClientV2 cfg (endpoint (V2.provider (V2.market o))) p
  ∧ match V2.type o with
    | V2.SELL => s = V2.baseAsset (V2.market o)
                 ∧ r = V2.quoteAsset (V2.market o)
    | V2.BUY => s = V2.quoteAsset (V2.market o)
                ∧ r = V2.baseAsset (V2.market o)
    end.
Proof.
  rewrite computeOrdersV2_flat_map, in_flat_map. split.
  - intros (m & Hm & Ho). unfold spec_ordersOfMarketV2 in Ho.
    apply in_app_or in Ho.
    destruct Ho as [Ho|Ho]; case_bool_decide; simpl in Ho;
      try tauto; destruct Ho as [<-|[]]; simpl; tauto.
  - intros (Hm & Hc & Ht). exists (V2.market o). split; [done|].
    unfold spec_ordersOfMarketV2. apply in_or_app.
    destruct o as [m [] c]; simpl in *; subst c;
      [right|left]; rewrite bool_decide_eq_true_2 by done; by left.
Qed.

(** C2. For every list of markets and every asset pair, [computeOrdersV1]
    and [computeOrdersV2] return, market after market in the order of the
    input, a SELL order when the pair is (baseAsset, quoteAsset) of the
    market, a BUY order when it is (quoteAsset, baseAsset), and nothing for
    a market the pair matches in neither direction. *)
Theorem computeOrders_sell_buy_in_market_order
    (cfg : string) (marketsV1 : list V1.TDEXMarket)
    (marketsV2 : list V2.TDEXMarket)
    (sentAsset receivedAsset : string) (torProxy : option string) :
  computeOrdersV1 marketsV1 sentAsset receivedAsset torProxy
  = flat_map (spec_ordersOfMarketV1 sentAsset receivedAsset torProxy)
             marketsV1
  ∧ computeOrdersV2 cfg marketsV2 sentAsset receivedAsset torProxy
    = flat_map (spec_ordersOfMarketV2 cfg sentAsset receivedAsset torProxy)
               marketsV2.
Proof.
  split; [apply computeOrdersV1_flat_map | apply computeOrdersV2_flat_map].
Qed.

Lemma spec_ordersOfMarketV1_length s r p m :
  s ≠ r ∨ V1.baseAsset m ≠ V1.quoteAsset m →
  length (spec_ordersOfMarketV1 s r p m) ≤ 1.
Proof.
  intros Hne. unfold spec_ordersOfMarketV1.
  repeat case_bool_decide; simpl; try lia.
  exfalso. destruct Hne as [Hne|Hne]; apply Hne; intuition congruence.
Qed.

Lemma spec_ordersOfMarketV2_length cfg s r p m :
  s ≠ r ∨ V2.baseAsset m ≠ V2.quoteAsset m →
  length (spec_ordersOfMarketV2 cfg s r p m) ≤ 1.
Proof.
  intros Hne. unfold spec_ordersOfMarketV2.
  repeat case_bool_decide; simpl; try lia.
  exfalso. destruct Hne as [Hne|Hne]; apply Hne; intuition congruence.
Qed.

Lemma oneOrderPerMarketV1_holds markets s r p :
  s ≠ r ∨ Forall (λ m, V1.baseAsset m ≠ V1.quoteAsset m) markets →
  oneOrderPerMarketV1 markets s r p.
Proof.
  intros Hne.
  assert (Hm : ∀ m, In m markets →
                    s ≠ r ∨ V1.baseAsset m ≠ V1.quoteAsset m).
  { intros m Hin. destruct Hne as [?|Hall]; [by left|right].
    rewrite Forall_forall in Hall. apply Hall. by apply list_elem_of_In. }
  split.
  - intros m Hin. rewrite computeOrdersV1_single.
    by apply spec_ordersOfMarketV1_length, Hm.
  - intros o1 o2 H1 H2 Heq.
    apply computeOrdersV1_In in H1 as (Hin & _ & T1).
    apply computeOrdersV1_In in H2 as (_ & _ & T2).
    rewrite <- Heq in T2. specialize (Hm _ Hin).
    destruct (V1.type o1), (V1.type o2); try done;
      exfalso; destruct Hm as [Hm|Hm]; apply Hm; intuition congruence.
Qed.

Lemma oneOrderPerMarketV2_holds cfg markets s r p :
  s ≠ r ∨ Forall (λ m, V2.baseAsset m ≠ V2.quoteAsset m) markets →
  oneOrderPerMarketV2 cfg markets s r p.
Proof.
  intros Hne.
  assert (Hm : ∀ m, In m markets →
                    s ≠ r ∨ V2.baseAsset m ≠ V2.quoteAsset m).
  { intros m Hin. destruct Hne as [?|Hall]; [by left|right].
    rewrite Forall_forall in Hall. apply Hall. by apply list_elem_of_In. }
  split.
  - intros m Hin. rewrite computeOrdersV2_single.
    by apply spec_ordersOfMarketV2_length, Hm.
  - intros o1 o2 H1 H2 Heq.
    apply computeOrdersV2_In in H1 as (Hin & _ & T1).
    apply computeOrdersV2_In in H2 as (_ & _ & T2).
    rewrite <- Heq in T2. specialize (Hm _ Hin).
    destruct (V2.type o1), (V2.type o2); try done;
      exfalso; destruct Hm as [Hm|Hm]; apply Hm; intuition congruence.
Qed.

(** C3, as stated, fails: on a market whose base and quote are the same
    asset, a request to swap that asset for itself passes both tests of the
    loop body, and the market yields a SELL order and a BUY order. *)
Lemma computeOrders_same_asset_two_orders :
  computeOrdersV1 [sameAssetMarketV1] "lbtc" "lbtc" None
  = [V1.mkOrder sameAssetMarketV1 V1.SELL
       (mkTraderClient "https://provider.example:9945"
                       "https://proxy.tdex.network");
     V1.mkOrder sameAssetMarketV1 V1.BUY
       (mkTraderClient "https://provider.example:9945"
                       "https://proxy.tdex.network")]
  ∧ ¬ oneOrderPerMarketV1 [sameAssetMarketV1] "lbtc" "lbtc" None.
Proof.
  split; [reflexivity|].
  intros [Hlen _]. specialize (Hlen sameAssetMarketV1 (or_introl eq_refl)).
  vm_compute in Hlen. lia.
Qed.

(** C3, amended. When the two assets of the request differ, or when every
    market has a base asset different from its quote asset, each market
    contributes at most one order to [computeOrdersV1] and to
    [computeOrdersV2], and no market has both a SELL and a BUY order in the
    result. *)
Theorem computeOrders_one_order_per_market
    (cfg : string) (marketsV1 : list V1.TDEXMarket)
    (marketsV2 : list V2.TDEXMarket)
    (sentAsset receivedAsset : string) (torProxy : option string) :
  sentAsset ≠ receivedAsset
  ∨ (Forall (λ m, V1.baseAsset m ≠ V1.quoteAsset m) marketsV1
     ∧ Forall (λ m, V2.baseAsset m ≠ V2.quoteAsset m) marketsV2) →
  oneOrderPerMarketV1 marketsV1 sentAsset receivedAsset torProxy
  ∧ oneOrderPerMarketV2 cfg marketsV2 sentAsset receivedAsset torProxy.
Proof.
  intros H. split.
  - apply oneOrderPerMarketV1_holds. tauto.
  - apply oneOrderPerMarketV2_holds. tauto.
Qed.

Lemma computeOrders_one_order_per_market_witness :
  oneOrderPerMarketV1 [sampleMarketV1; sampleMarketV1] "usdt" "lbtc" None
  ∧ oneOrderPerMarketV2 sampleTorProxy [sampleMarketV2] "usdt" "lbtc" None.
Proof.
  apply (computeOrders_one_order_per_market sampleTorProxy
           [sampleMarketV1; sampleMarketV1] [sampleMarketV2]
           "usdt" "lbtc" None).
  left. discriminate.
Defined.

(** ** Best-order selector *)

Lemma length_eqb_0 {A} (l : list A) : (length l =? 0) = bool_decide (l = []).
Proof. by destruct l. Qed.

(** The construction phase returns a closure only for two non-empty asset
    names and at least one candidate; the closure is the arrow function
    over the two candidate lists, and nothing is logged. *)
Lemma discoverBestOrder_Ok_inv cfg d1 d2 m1 m2 send recv closure :
  outcome (discoverBestOrder cfg d1 d2 m1 m2 send recv) = Ok closure →
  ∃ s r,
    send = Some s ∧ recv = Some r ∧ s ≠ EmptyString ∧ r ≠ EmptyString
    ∧ (computeOrdersV1 m1 s r None ≠ []
       ∨ computeOrdersV2 cfg m2 s r None ≠ [])
    ∧ trace (discoverBestOrder cfg d1 d2 m1 m2 send recv) = []
    ∧ closure = discoverBestOrder_closure d1 d2
                  (computeOrdersV1 m1 s r None)
                  (computeOrdersV2 cfg m2 s r None).
Proof.
  unfold discoverBestOrder.
  destruct send as [s|], recv as [r|]; try discriminate.
  destruct (String.eqb_spec s EmptyString) as [->|Hs]; [discriminate|].
  destruct (String.eqb_spec r EmptyString) as [->|Hr]; [discriminate|].
  simpl. rewrite !length_eqb_0.
  repeat case_bool_decide; simpl; try discriminate;
    intros [= <-]; exists s, r; tauto.
Qed.

(** The closure never rejects: whatever is thrown while discovering is
    caught, logged, and replaced by the first V1 candidate. *)
Lemma discoverBestOrder_closure_resolves d1 d2 all1 all2 sats asset :
  ∃ v, outcome (discoverBestOrder_closure d1 d2 all1 all2 sats asset) = Ok v.
Proof.
  unfold discoverBestOrder_closure, awaitDiscoverV1, awaitDiscoverV2.
  destruct (sats <=? 0)%Z; [by eexists|].
  destruct (d1 all1 asset sats) as [b1|e1]; simpl; [|by eexists].
  destruct (d2 all2 asset sats) as [b2|e2]; simpl; [|by eexists].
  destruct ((length b1 =? 0) && (length b2 =? 0)); simpl; by eexists.
Qed.

Lemma discoverBestOrder_closure_catch d1 d2 all1 all2 sats asset :
  (0 < sats)%Z →
  (∃ e, d1 all1 asset sats = Throw e)
  ∨ (∃ b1 e, d1 all1 asset sats = Ok b1 ∧ d2 all2 asset sats = Throw e)
  ∨ (d1 all1 asset sats = Ok [] ∧ d2 all2 asset sats = Ok []) →
  outcome (discoverBestOrder_closure d1 d2 all1 all2 sats asset)
  = Ok (OrderV1 <$> head all1).
Proof.
  intros Hpos H. unfold discoverBestOrder_closure.
  replace (sats <=? 0)%Z with false by (symmetry; apply Z.leb_gt; lia).
  unfold awaitDiscoverV1, awaitDiscoverV2.
  destruct H as [[e ->]|[(b1 & e & -> & ->)|[-> ->]]]; reflexivity.
Qed.

(** C4. In the closure returned by [discoverBestOrder], for a positive
    amount and two discovery runs that return rankings of which at least
    one is non-empty, the selected order is the head of the V2 ranking when
    that ranking is non-empty, and the head of the V1 ranking only when the
    V2 ranking is empty. *)
Theorem discoverBestOrder_prefers_V2_ranking
    (cfg : string)
    (d1 : list V1.TradeOrder → string → Z → result (list V1.TradeOrder))
    (d2 : list V2.TradeOrder → string → Z → result (list V2.TradeOrder))
    (m1 : list V1.TDEXMarket) (m2 : list V2.TDEXMarket)
    (sendAsset receiveAsset : string)
    (closure : Z → string → M (option AnyTradeOrder))
    (sats : Z) (asset : string)
    (bestOrdersV1 : list V1.TradeOrder) (bestOrdersV2 : list V2.TradeOrder) :
  outcome (discoverBestOrder cfg d1 d2 m1 m2
             (Some sendAsset) (Some receiveAsset)) = Ok closure →
  (0 < sats)%Z →
  d1 (computeOrdersV1 m1 sendAsset receiveAsset None) asset sats
  = Ok bestOrdersV1 →
  d2 (computeOrdersV2 cfg m2 sendAsset receiveAsset None) asset sats
  = Ok bestOrdersV2 →
  bestOrdersV1 ≠ [] ∨ bestOrdersV2 ≠ [] →
  match bestOrdersV2 with
  | o2 :: _ => outcome (closure sats asset) = Ok (Some (OrderV2 o2))
  | [] => ∃ o1 rest, bestOrdersV1 = o1 :: rest
                     ∧ outcome (closure sats asset) = Ok (Some (OrderV1 o1))
  end.
Proof.
  intros Hc Hpos H1 H2 Hne.
  apply discoverBestOrder_Ok_inv in Hc
    as (s & r & [= <-] & [= <-] & _ & _ & _ & _ & ->).
  unfold discoverBestOrder_closure.
  replace (sats <=? 0)%Z with false by (symmetry; apply Z.leb_gt; lia).
  unfold awaitDiscoverV1, awaitDiscoverV2. rewrite H1, H2. simpl.
  destruct bestOrdersV2 as [|o2 rest2].
  - destruct bestOrdersV1 as [|o1 rest1]; [by destruct Hne|].
    by exists o1, rest1.
  - by rewrite andb_false_r.
Qed.

Lemma discoverBestOrder_prefers_V2_ranking_witness :
  outcome (discoverBestOrder_closure keepAllV1 keepAllV2
             (computeOrdersV1 [sampleMarketV1] "lbtc" "usdt" None)
             (computeOrdersV2 sampleTorProxy [sampleMarketV2]
                              "lbtc" "usdt" None)
             100 "lbtc")
  = Ok (Some (OrderV2
                (V2.mkOrder sampleMarketV2 V2.SELL
                   (mkTraderClient "https://provider.example:9945"
                                   "https://proxy.tdex.network")))).
Proof.
  apply (discoverBestOrder_prefers_V2_ranking sampleTorProxy
           keepAllV1 keepAllV2 [sampleMarketV1] [sampleMarketV2]
           "lbtc" "usdt" _ 100%Z "lbtc"
           (computeOrdersV1 [sampleMarketV1] "lbtc" "usdt" None)
           (computeOrdersV2 sampleTorProxy [sampleMarketV2]
                            "lbtc" "usdt" None));
    [reflexivity | lia | reflexivity | reflexivity | left; discriminate].
Defined.

(** C6, as stated, fails: with an empty [sendAsset] both candidate sets are
    empty, yet the first guard of [discoverBestOrder] throws its own error
    and the no-liquidity error is never reached. *)
Lemma discoverBestOrder_empty_asset_other_error :
  computeOrdersV1 [] EmptyString "usdt" None = []
  ∧ computeOrdersV2 sampleTorProxy [] EmptyString "usdt" None = []
  ∧ outcome (discoverBestOrder sampleTorProxy emptyRankingV1 emptyRankingV2
               [] [] (Some EmptyString) (Some "usdt"%string))
    = Throw (Error "unable to compute orders for selected market")
  ∧ outcome (discoverBestOrder sampleTorProxy emptyRankingV1 emptyRankingV2
               [] [] (Some EmptyString) (Some "usdt"%string))
    ≠ Throw NoMarketsAvailableForSelectedPairError.
Proof. repeat split; [reflexivity..|discriminate]. Qed.

(** C6, amended. For two non-empty asset names and every pair of market
    lists for which [computeOrdersV1] and [computeOrdersV2] both yield no
    candidate, [discoverBestOrder] throws the no-liquidity error during its
    construction phase: no closure is produced, and the only event is the
    console message, so no network call is made. *)
Theorem discoverBestOrder_no_markets_for_pair
    (cfg : string)
    (d1 : list V1.TradeOrder → string → Z → result (list V1.TradeOrder))
    (d2 : list V2.TradeOrder → string → Z → result (list V2.TradeOrder))
    (m1 : list V1.TDEXMarket) (m2 : list V2.TDEXMarket)
    (sendAsset receiveAsset : string) :
  sendAsset ≠ EmptyString → receiveAsset ≠ EmptyString →
  computeOrdersV1 m1 sendAsset receiveAsset None = [] →
  computeOrdersV2 cfg m2 sendAsset receiveAsset None = [] →
  outcome (discoverBestOrder cfg d1 d2 m1 m2
             (Some sendAsset) (Some receiveAsset))
  = Throw NoMarketsAvailableForSelectedPairError
  ∧ trace (discoverBestOrder cfg d1 d2 m1 m2
             (Some sendAsset) (Some receiveAsset))
    = [ConsoleErrorMessage
         ("markets not found for pair " +:+ sendAsset +:+ "-"
            +:+ receiveAsset)]
  ∧ forallb (λ ev, negb (isNetworkCall ev))
      (trace (discoverBestOrder cfg d1 d2 m1 m2
                (Some sendAsset) (Some receiveAsset))) = true.
Proof.
  intros Hs Hr H1 H2. unfold discoverBestOrder.
  destruct (String.eqb_spec sendAsset EmptyString); [done|].
  destruct (String.eqb_spec receiveAsset EmptyString); [done|].
  simpl. rewrite H1, H2. by simpl.
Qed.

Lemma discoverBestOrder_no_markets_for_pair_witness :
  outcome (discoverBestOrder sampleTorProxy keepAllV1 keepAllV2
             [sampleMarketV1] [sampleMarketV2]
             (Some "lbtc"%string) (Some "lcad"%string))
  = Throw NoMarketsAvailableForSelectedPairError
  ∧ trace (discoverBestOrder sampleTorProxy keepAllV1 keepAllV2
             [sampleMarketV1] [sampleMarketV2]
             (Some "lbtc"%string) (Some "lcad"%string))
    = [ConsoleErrorMessage "markets not found for pair lbtc-lcad"]
  ∧ forallb (λ ev, negb (isNetworkCall ev))
      (trace (discoverBestOrder sampleTorProxy keepAllV1 keepAllV2
                [sampleMarketV1] [sampleMarketV2]
                (Some "lbtc"%string) (Some "lcad"%string))) = true.
Proof.
  apply (discoverBestOrder_no_markets_for_pair sampleTorProxy
           keepAllV1 keepAllV2 [sampleMarketV1] [sampleMarketV2]
           "lbtc" "lcad");
    [discriminate | discriminate | reflexivity | reflexivity].
Defined.

(** C7. For every amount at most zero, the closure returned by
    [discoverBestOrder] runs no discovery (its trace is empty) and resolves
    to the first V1 candidate when there is one, otherwise to the first V2
    candidate. *)
Theorem discoverBestOrder_nonpositive_amount
    (cfg : string)
    (d1 : list V1.TradeOrder → string → Z → result (list V1.TradeOrder))
    (d2 : list V2.TradeOrder → string → Z → result (list V2.TradeOrder))
    (m1 : list V1.TDEXMarket) (m2 : list V2.TDEXMarket)
    (sendAsset receiveAsset : string)
    (closure : Z → string → M (option AnyTradeOrder))
    (sats : Z) (asset : string) :
  outcome (discoverBestOrder cfg d1 d2 m1 m2
             (Some sendAsset) (Some receiveAsset)) = Ok closure →
  (sats ≤ 0)%Z →
  trace (closure sats asset) = []
  ∧ match computeOrdersV1 m1 sendAsset receiveAsset None with
    | o1 :: _ => outcome (closure sats asset) = Ok (Some (OrderV1 o1))
    | [] => ∃ o2 rest,
              computeOrdersV2 cfg m2 sendAsset receiveAsset None = o2 :: rest
              ∧ outcome (closure sats asset) = Ok (Some (OrderV2 o2))
    end.
Proof.
  intros Hc Hle.
  apply discoverBestOrder_Ok_inv in Hc
    as (s & r & [= <-] & [= <-] & _ & _ & Hne & _ & ->).
  unfold discoverBestOrder_closure.
  replace (sats <=? 0)%Z with true by (symmetry; apply Z.leb_le; lia).
  split; [reflexivity|].
  destruct (computeOrdersV1 m1 sendAsset receiveAsset None) as [|o1 rest1];
    [|reflexivity].
  destruct (computeOrdersV2 cfg m2 sendAsset receiveAsset None)
    as [|o2 rest2]; [by destruct Hne|].
  by exists o2, rest2.
Qed.

Lemma discoverBestOrder_nonpositive_amount_witness :
  trace (discoverBestOrder_closure keepAllV1 keepAllV2
           (computeOrdersV1 [] "usdt" "lbtc" None)
           (computeOrdersV2 sampleTorProxy [sampleMarketV2]
                            "usdt" "lbtc" None)
           0 "usdt") = []
  ∧ ∃ o2 rest,
      computeOrdersV2 sampleTorProxy [sampleMarketV2] "usdt" "lbtc" None
      = o2 :: rest
      ∧ outcome (discoverBestOrder_closure keepAllV1 keepAllV2
                   (computeOrdersV1 [] "usdt" "lbtc" None)
                   (computeOrdersV2 sampleTorProxy [sampleMarketV2]
                                    "usdt" "lbtc" None)
                   0 "usdt")
        = Ok (Some (OrderV2 o2)).
Proof.
  apply (discoverBestOrder_nonpositive_amount sampleTorProxy
           keepAllV1 keepAllV2 [] [sampleMarketV2] "usdt" "lbtc" _
           0%Z "usdt"); [reflexivity | lia].
Defined.

(** C10. When [sendAsset] or [receiveAsset] is undefined or empty,
    [discoverBestOrder] throws "unable to compute orders for selected
    market" whatever the market lists are, with nothing logged and no
    closure produced. *)
Theorem discoverBestOrder_missing_asset
    (cfg : string)
    (d1 : list V1.TradeOrder → string → Z → result (list V1.TradeOrder))
    (d2 : list V2.TradeOrder → string → Z → result (list V2.TradeOrder))
    (m1 : list V1.TDEXMarket) (m2 : list V2.TDEXMarket)
    (sendAsset receiveAsset : option string) :
  missingAsset sendAsset ∨ missingAsset receiveAsset →
  discoverBestOrder cfg d1 d2 m1 m2 sendAsset receiveAsset
  = ([], Throw (Error "unable to compute orders for selected market")).
Proof.
  unfold missingAsset, discoverBestOrder.
  destruct sendAsset as [s|], receiveAsset as [r|]; try reflexivity.
  intros [[[=]|[= ->]]|[[=]|[= ->]]]; [reflexivity|].
  by rewrite orb_true_r.
Qed.

Lemma discoverBestOrder_missing_asset_witness :
  discoverBestOrder sampleTorProxy keepAllV1 keepAllV2
    [sampleMarketV1] [sampleMarketV2] (Some "lbtc"%string) None
  = ([], Throw (Error "unable to compute orders for selected market")).
Proof.
  apply (discoverBestOrder_missing_asset sampleTorProxy keepAllV1 keepAllV2
           [sampleMarketV1] [sampleMarketV2] (Some "lbtc"%string) None).
  right. left. reflexivity.
Defined.

(** C5, evaluated where it breaks. With no V1 candidate, one V2 candidate
    and two discovery runs whose rankings are empty, "zero best orders
    found" is thrown and caught, and the handler resolves to the first V1
    candidate, which is [undefined]: the caller receives no order although
    a candidate exists. The branch for a non-positive amount falls back on
    the V2 candidate in the same situation. *)
Lemma discoverBestOrder_catch_resolves_undefined :
  ∃ closure,
    outcome (discoverBestOrder sampleTorProxy emptyRankingV1 emptyRankingV2
               [] [sampleMarketV2] (Some "lbtc"%string) (Some "usdt"%string))
    = Ok closure
    ∧ computeOrdersV1 [] "lbtc" "usdt" None = []
    ∧ computeOrdersV2 sampleTorProxy [sampleMarketV2] "lbtc" "usdt" None
      = [V2.mkOrder sampleMarketV2 V2.SELL
           (mkTraderClient "https://provider.example:9945"
                           "https://proxy.tdex.network")]
    ∧ closure 100%Z "lbtc"%string
      = ([DiscoverV1 [] "lbtc" 100;
          DiscoverV2 [V2.mkOrder sampleMarketV2 V2.SELL
                        (mkTraderClient "https://provider.example:9945"
                                        "https://proxy.tdex.network")]
                     "lbtc" 100;
          ConsoleErrorObject (Error "zero best orders found by discoverer")],
         Ok None)
    ∧ closure 0%Z "lbtc"%string
      = ([], Ok (Some (OrderV2
                         (V2.mkOrder sampleMarketV2 V2.SELL
                            (mkTraderClient "https://provider.example:9945"
                                            "https://proxy.tdex.network"))))).
Proof. eexists. repeat split. Qed.

(** ** Buffers *)

Lemma fromHex_byteToHex (b : Byte.byte) (s : string) :
  fromHex (byteToHex b +:+ s) = b :: fromHex s.
Proof. by destruct b. Qed.

(** Decoding undoes encoding. *)
Lemma fromHex_toHex (buf : list Byte.byte) : fromHex (toHex buf) = buf.
Proof.
  induction buf as [|b buf IH]; [done|].
  change (toHex (b :: buf)) with (byteToHex b +:+ toHex buf).
  by rewrite fromHex_byteToHex, IH.
Qed.

(** On the hexadecimal rendering of a buffer, [reverseHex] is the rendering
    of the buffer with its bytes in reverse order. *)
Lemma reverseHex_toHex (buf : list Byte.byte) :
  reverseHex (toHex buf) = toHex (rev buf).
Proof. unfold reverseHex. by rewrite fromHex_toHex. Qed.

(** ** Confidential input resolver *)

Section ResolverProofs.

Context {ScriptDetails : Type}.
Variable outpointToString : Outpoint → string.
Implicit Types (state : @WalletState ScriptDetails) (pset : Pset).

Lemma for_of_Throw {A S} (body : S → A → result S) (l : list A) (e : error) :
  fold_left (λ acc x, match acc with
                      | Ok s => body s x
                      | Throw e => Throw e
                      end) l (Throw e) = Throw e.
Proof. by induction l. Qed.

Lemma for_of_cons {A S} (body : S → A → result S) x l init :
  for_of body (x :: l) init
  = match body init x with
    | Ok s => for_of body l s
    | Throw e => Throw e
    end.
Proof.
  unfold for_of. simpl. destruct (body init x); [done|apply for_of_Throw].
Qed.

(** The local dictionary built by the first loop agrees with the wallet's
    script index on the scripts of the inputs, and is empty elsewhere. *)
Lemma collectScriptsDetails_loop state (l : list string) :
  ∀ (acc : gmap string ScriptDetails) k,
    fold_left (λ scriptsDetails script,
                 match scriptDetails state !! script with
                 | Some details => <[script := details]> scriptsDetails
                 | None => scriptsDetails
                 end) l acc !! k
    = if decide (k ∈ l)
      then match scriptDetails state !! k with
           | Some details => Some details
           | None => acc !! k
           end
      else acc !! k.
Proof.
  induction l as [|x l IH]; intros acc k; simpl.
  - done.
  - rewrite IH.
    destruct (decide (k ∈ l)) as [Hl|Hl].
    + rewrite decide_True by (by right).
      destruct (scriptDetails state !! k) eqn:Hk; [done|].
      destruct (scriptDetails state !! x) eqn:Hx; [|done].
      apply lookup_insert_ne. congruence.
    + destruct (decide (k = x)) as [->|Hne].
      * rewrite decide_True by (by left).
        destruct (scriptDetails state !! x) eqn:Hx; [|done].
        apply lookup_insert_eq.
      * rewrite decide_False by (rewrite elem_of_cons; tauto).
        destruct (scriptDetails state !! x); [|done].
        by apply lookup_insert_ne.
Qed.

Lemma collectScriptsDetails_lookup state (l : list string) k :
  collectScriptsDetails state l !! k
  = if decide (k ∈ l) then scriptDetails state !! k else None.
Proof.
  unfold collectScriptsDetails. rewrite collectScriptsDetails_loop.
  rewrite lookup_empty. by destruct (scriptDetails state !! k).
Qed.

Lemma inputScriptHex_elem pset i input w :
  inputs pset !! i = Some input → witnessUtxo input = Some w →
  toHex (script w) ∈ omap inputScriptHex (inputs pset).
Proof.
  intros Hi Hw. apply list_elem_of_omap. exists input. split.
  - by eapply list_elem_of_lookup_2.
  - unfold inputScriptHex. by rewrite Hw.
Qed.

(** The second loop keeps the positions of the wallet-owned inputs. *)
Lemma collectInputIndexes_loop state pset len : ∀ start acc,
  start + len ≤ length (inputs pset) →
  for_of (λ inputIndexes i,
            match at_index (inputs pset) i with
            | Throw e => Throw e
            | Ok input =>
                match witnessUtxo input with
                | None => Ok inputIndexes
                | Some w =>
                    match collectScriptsDetails state
                            (omap inputScriptHex (inputs pset))
                          !! toHex (script w) with
                    | Some _ => Ok (inputIndexes ++ [i])
                    | None => Ok inputIndexes
                    end
                end
            end) (seq start len) acc
  = Ok (acc ++ List.filter (ownedAt state pset) (seq start len)).
Proof.
  induction len as [|len IH]; intros start acc Hlen; simpl.
  - by rewrite app_nil_r.
  - rewrite for_of_cons. unfold at_index, ownedAt.
    destruct (inputs pset !! start) as [input|] eqn:Hi.
    2:{ apply lookup_ge_None in Hi. lia. }
    simpl. unfold ownedInput.
    destruct (witnessUtxo input) as [w|] eqn:Hw.
    + rewrite collectScriptsDetails_lookup.
      rewrite decide_True by (by eapply inputScriptHex_elem).
      destruct (scriptDetails state !! toHex (script w)) eqn:Hsd.
      * rewrite bool_decide_eq_true_2 by done.
        rewrite IH by lia. by rewrite <- app_assoc.
      * rewrite bool_decide_eq_false_2 by (by intros [? ?]).
        apply IH. lia.
    + apply IH. lia.
Qed.

Lemma collectInputIndexes_owned state pset :
  collectInputIndexes
    (collectScriptsDetails state (omap inputScriptHex (inputs pset))) pset
  = Ok (List.filter (ownedAt state pset) (seq 0 (length (inputs pset)))).
Proof.
  unfold collectInputIndexes. by rewrite collectInputIndexes_loop.
Qed.

Lemma unblindInput_entryAt state pset acc i :
  i < length (inputs pset) →
  unblindInput outpointToString state pset acc i
  = Ok (acc ++ option_list (entryAt outpointToString state pset i)).
Proof.
  intros Hi. unfold unblindInput, entryAt, at_index.
  destruct (inputs pset !! i) as [input|] eqn:Hin.
  2:{ apply lookup_ge_None in Hin. lia. }
  destruct (outputHistory state !! historyKey outpointToString input)
    as [o|]; simpl; [|by rewrite app_nil_r].
  destruct (blindingData o); simpl; [done|by rewrite app_nil_r].
Qed.

(** The third loop pushes one entry per position with cached blinding
    data, in the order of the positions. *)
Lemma unblindInput_loop state pset idxs : ∀ acc,
  Forall (λ i, i < length (inputs pset)) idxs →
  for_of (unblindInput outpointToString state pset) idxs acc
  = Ok (acc ++ omap (entryAt outpointToString state pset) idxs).
Proof.
  induction idxs as [|i idxs IH]; intros acc Hall.
  - unfold for_of. simpl. by rewrite app_nil_r.
  - apply Forall_cons in Hall as [Hi Hall].
    rewrite for_of_cons, unblindInput_entryAt by done.
    rewrite IH by done. rewrite <- app_assoc. f_equal. f_equal.
    simpl. by destruct (entryAt outpointToString state pset i).
Qed.

(** The resolver never throws, and its result is read off the inputs:
    the positions of the wallet-owned inputs, in increasing order, each
    replaced by its entry when the history holds blinding data for it. *)
Lemma psetToUnblindedInputs_eq state pset :
  psetToUnblindedInputs outpointToString state pset
  = Ok (omap (entryAt outpointToString state pset)
          (List.filter (ownedAt state pset)
             (seq 0 (length (inputs pset))))).
Proof.
  unfold psetToUnblindedInputs.
  rewrite collectInputIndexes_owned, unblindInput_loop; [done|].
  apply Forall_forall. intros i Hi.
  apply list_elem_of_In, filter_In in Hi as [Hi _].
  apply in_seq in Hi. lia.
Qed.

Lemma ownedAt_walletOwned state pset i :
  ownedAt state pset i = true ↔ walletOwned state pset i.
Proof.
  unfold ownedAt, walletOwned, ownedInput. split.
  - destruct (inputs pset !! i) as [input|]; simpl; [|done].
    destruct (witnessUtxo input) as [w|] eqn:Hw; [|done].
    intros H%bool_decide_eq_true. by exists input, w.
  - intros (input & w & -> & Hw & Hsd). simpl. rewrite Hw.
    by apply bool_decide_eq_true.
Qed.

Lemma entryAt_Some state pset i u :
  entryAt outpointToString state pset i = Some u ↔
  ∃ data, cachedBlindingData outpointToString state pset i data
          ∧ u = unblindedInputOf i data.
Proof.
  unfold entryAt, cachedBlindingData. split.
  - destruct (inputs pset !! i) as [input|]; [|done].
    destruct (outputHistory state !! historyKey outpointToString input)
      as [o|] eqn:Ho; [|done].
    destruct (blindingData o) as [data|] eqn:Hd; [|done].
    intros [= <-]. exists data. split; [|done]. by exists input, o.
  - intros (data & (input & o & -> & -> & ->) & ->). done.
Qed.

(** Membership in the result. *)
Lemma psetToUnblindedInputs_In state pset us u :
  psetToUnblindedInputs outpointToString state pset = Ok us →
  (In u us ↔
   walletOwned state pset (UnblindedInput.index u)
   ∧ ∃ data,
       cachedBlindingData outpointToString state pset
         (UnblindedInput.index u) data
       ∧ u = unblindedInputOf (UnblindedInput.index u) data).
Proof.
  rewrite psetToUnblindedInputs_eq. intros [= <-].
  rewrite <- list_elem_of_In, list_elem_of_omap. split.
  - intros (i & Hi & He).
    apply list_elem_of_In, filter_In in Hi as [_ Hown].
    apply entryAt_Some in He as (data & Hc & ->). simpl.
    split; [by apply ownedAt_walletOwned|]. by exists data.
  - intros (Hown & data & Hc & Hu).
    exists (UnblindedInput.index u). split.
    + apply list_elem_of_In, filter_In. split.
      * destruct Hown as (input & _ & Hi & _).
        apply lookup_lt_Some in Hi. apply in_seq. lia.
      * by apply ownedAt_walletOwned.
    + apply entryAt_Some. by exists data.
Qed.

Lemma entryAt_index state pset i u :
  entryAt outpointToString state pset i = Some u → UnblindedInput.index u = i.
Proof. intros (data & _ & ->)%entryAt_Some. done. Qed.

Lemma map_index_omap_entryAt state pset (l : list nat) :
  map UnblindedInput.index (omap (entryAt outpointToString state pset) l)
  = List.filter (λ i, bool_decide
                        (is_Some (entryAt outpointToString state pset i))) l.
Proof.
  induction l as [|i l IH]; [done|]. simpl.
  destruct (entryAt outpointToString state pset i) as [u|] eqn:He.
  - rewrite bool_decide_eq_true_2 by done. simpl.
    f_equal; [by eapply entryAt_index|done].
  - rewrite bool_decide_eq_false_2 by (by intros [? ?]). done.
Qed.

(** The indices of the result are pairwise distinct. *)
Lemma psetToUnblindedInputs_NoDup state pset us :
  psetToUnblindedInputs outpointToString state pset = Ok us →
  NoDup (map UnblindedInput.index us).
Proof.
  rewrite psetToUnblindedInputs_eq. intros [= <-].
  rewrite map_index_omap_entryAt.
  apply NoDup_ListNoDup, List.NoDup_filter, List.NoDup_filter, List.seq_NoDup.
Qed.

End ResolverProofs.

(** The scenario of section 8: of three inputs, the first and the third
    are wallet-owned with cached blinding data; the result has the two
    entries of indices 0 and 2, transaction ids and blinding factors
    byte-reversed. *)
Example psetToUnblindedInputs_sample :
  psetToUnblindedInputs spec_outpointToString sampleWallet samplePset
  = Ok [UnblindedInput.mk "lbtc" "0b0a" "0d0c" "1000" 0;
        UnblindedInput.mk "usdt" "1b1a" "1d1c" "5" 2].
Proof. vm_compute. reflexivity. Qed.

(** C1. For every transaction template and wallet state,
    [psetToUnblindedInputs] returns a list each entry of which carries the
    position of a template input; the wallet's output history, looked up at
    the key made of the hex rendering of that input's byte-reversed previous
    transaction id and of its output index, holds blinding data whose asset
    is the entry's asset, whose value in decimal is the entry's amount, and
    whose two blinding factors, decoded from hex, byte-reversed and encoded
    again, are the entry's asset blinder and amount blinder. *)
Theorem psetToUnblindedInputs_entries_from_history
    {ScriptDetails : Type} (outpointToString : Outpoint → string)
    (state : @WalletState ScriptDetails) (pset : Pset) :
  ∃ unblindedInputs,
    psetToUnblindedInputs outpointToString state pset = Ok unblindedInputs
    ∧ Forall
        (λ u,
           ∃ input unblindOutput data,
             inputs pset !! UnblindedInput.index u = Some input
             ∧ outputHistory state
                 !! outpointToString
                      (mkOutpoint (toHex (rev (previousTxid input)))
                                  (previousTxIndex input))
                = Some unblindOutput
             ∧ blindingData unblindOutput = Some data
             ∧ UnblindedInput.asset u = BlindingData.asset data
             ∧ UnblindedInput.amount u = pretty (BlindingData.value data)
             ∧ UnblindedInput.assetBlinder u
               = toHex (rev (fromHex (BlindingData.assetBlindingFactor data)))
             ∧ UnblindedInput.amountBlinder u
               = toHex (rev (fromHex (BlindingData.valueBlindingFactor data))))
        unblindedInputs.
Proof.
  eexists. split; [apply psetToUnblindedInputs_eq|].
  apply Forall_forall. intros u Hu.
  apply list_elem_of_In in Hu.
  apply (psetToUnblindedInputs_In outpointToString state pset _ u
           (psetToUnblindedInputs_eq outpointToString state pset)) in Hu
    as (_ & data & (input & o & Hi & Ho & Hd) & Hu).
  exists input, o, data. do 3 (split; [done|]).
  destruct u as [a ab vb am ix]. simpl in *. by injection Hu as -> -> -> ->.
Qed.

(** C8. A template input whose script is in the wallet's script index but
    whose outpoint is absent from the output history, or whose history
    entry has no blinding data, has no entry in the result of
    [psetToUnblindedInputs]; the call does not throw, and every wallet-owned
    input with cached blinding data still has its entry in the result. *)
Theorem psetToUnblindedInputs_skips_uncached_input
    {ScriptDetails : Type} (outpointToString : Outpoint → string)
    (state : @WalletState ScriptDetails) (pset : Pset) (i : nat) :
  walletOwned state pset i →
  blindingDataMissing outpointToString state pset i →
  ∃ unblindedInputs,
    psetToUnblindedInputs outpointToString state pset = Ok unblindedInputs
    ∧ ¬ In i (map UnblindedInput.index unblindedInputs)
    ∧ ∀ j data,
        walletOwned state pset j →
        cachedBlindingData outpointToString state pset j data →
        In (unblindedInputOf j data) unblindedInputs.
Proof.
  intros Hown (input & Hi & Hmiss).
  eexists. split; [apply psetToUnblindedInputs_eq|].
  pose proof (λ u, psetToUnblindedInputs_In outpointToString state pset _ u
                     (psetToUnblindedInputs_eq outpointToString state pset))
    as HIn.
  split.
  - intros (u & <- & Hu)%in_map_iff.
    apply HIn in Hu as (_ & data & (input' & o & Hi' & Ho & Hd) & _).
    rewrite Hi in Hi'. injection Hi' as <-.
    destruct Hmiss as [Hnone|(o' & Ho' & Hd')]; congruence.
  - intros j data Hj Hc. apply HIn. simpl. split; [done|]. by exists data.
Qed.

Lemma psetToUnblindedInputs_skips_uncached_input_witness :
  walletOwned sampleWallet partlyCachedPset 0
  ∧ blindingDataMissing spec_outpointToString sampleWallet partlyCachedPset 0
  ∧ ∃ unblindedInputs,
      psetToUnblindedInputs spec_outpointToString sampleWallet
        partlyCachedPset = Ok unblindedInputs
      ∧ ¬ In 0 (map UnblindedInput.index unblindedInputs)
      ∧ ∀ j data,
          walletOwned sampleWallet partlyCachedPset j →
          cachedBlindingData spec_outpointToString sampleWallet
            partlyCachedPset j data →
          In (unblindedInputOf j data) unblindedInputs.
Proof.
  assert (Hown : walletOwned sampleWallet partlyCachedPset 0).
  { eexists _, _. split; [reflexivity|]. split; [reflexivity|].
    vm_compute. eauto. }
  assert (Hmiss : blindingDataMissing spec_outpointToString sampleWallet
                    partlyCachedPset 0).
  { eexists. split; [reflexivity|]. right. eexists. split; reflexivity. }
  split; [exact Hown|]. split; [exact Hmiss|].
  exact (psetToUnblindedInputs_skips_uncached_input spec_outpointToString
           sampleWallet partlyCachedPset 0 Hown Hmiss).
Defined.

(** C9, as stated, fails: a wallet-owned input whose outpoint is not in the
    output history has no entry, so the indices of the result are not the
    positions of the wallet-owned inputs. *)
Lemma psetToUnblindedInputs_owned_input_without_entry :
  psetToUnblindedInputs spec_outpointToString sampleWallet uncachedPset
  = Ok []
  ∧ walletOwned sampleWallet uncachedPset 0
  ∧ ¬ indexesMatchOwnedInputs sampleWallet uncachedPset [].
Proof.
  assert (Hown : walletOwned sampleWallet uncachedPset 0).
  { eexists _, _. split; [reflexivity|]. split; [reflexivity|].
    vm_compute. eauto. }
  split; [by vm_compute|]. split; [done|].
  intros [_ H]. apply H in Hown. destruct Hown.
Qed.

(** C9, amended. The input indices in the result of
    [psetToUnblindedInputs] are pairwise distinct and are exactly the
    positions of the wallet-owned inputs for whose outpoint the output
    history holds blinding data; in particular an input that is not
    wallet-owned never appears. *)
Theorem psetToUnblindedInputs_indexes
    {ScriptDetails : Type} (outpointToString : Outpoint → string)
    (state : @WalletState ScriptDetails) (pset : Pset) :
  ∃ unblindedInputs,
    psetToUnblindedInputs outpointToString state pset = Ok unblindedInputs
    ∧ NoDup (map UnblindedInput.index unblindedInputs)
    ∧ ∀ i, In i (map UnblindedInput.index unblindedInputs)
           ↔ walletOwned state pset i
             ∧ ∃ data, cachedBlindingData outpointToString state pset i data.
Proof.
  eexists. split; [apply psetToUnblindedInputs_eq|].
  pose proof (λ u, psetToUnblindedInputs_In outpointToString state pset _ u
                     (psetToUnblindedInputs_eq outpointToString state pset))
    as HIn.
  split.
  - eapply psetToUnblindedInputs_NoDup, psetToUnblindedInputs_eq.
  - intros i. rewrite in_map_iff. split.
    + intros (u & <- & Hu). apply HIn in Hu as (Hown & data & Hc & _).
      split; [done|]. by exists data.
    + intros (Hown & data & Hc). exists (unblindedInputOf i data).
      split; [done|]. apply HIn. simpl. split; [done|]. by exists data.
Qed.

(** * Further properties of the trading service *)

(** ** Order computer *)

(** X1. [computeOrdersV1] and [computeOrdersV2] distribute over the
    concatenation of market lists: the orders of two catalogs put end to
    end are the orders of the first followed by the orders of the second. *)
Theorem computeOrders_app
    (cfg : string) (l1 l2 : list V1.TDEXMarket) (k1 k2 : list V2.TDEXMarket)
    (sentAsset receivedAsset : string) (torProxy : option string) :
  computeOrdersV1 (l1 ++ l2) sentAsset receivedAsset torProxy
  = computeOrdersV1 l1 sentAsset receivedAsset torProxy
    ++ computeOrdersV1 l2 sentAsset receivedAsset torProxy
  ∧ computeOrdersV2 cfg (k1 ++ k2) sentAsset receivedAsset torProxy
    = computeOrdersV2 cfg k1 sentAsset receivedAsset torProxy
      ++ computeOrdersV2 cfg k2 sentAsset receivedAsset torProxy.
Proof.
  rewrite !computeOrdersV1_flat_map, !computeOrdersV2_flat_map.
  by rewrite !flat_map_app.
Qed.

Lemma spec_ordersOfMarketV1_swap s r p m :
  s ≠ r →
  spec_ordersOfMarketV1 r s p m
  = map oppositeV1 (spec_ordersOfMarketV1 s r p m).
Proof.
  intros Hne. unfold spec_ordersOfMarketV1.
  repeat case_bool_decide; simpl; try done;
    exfalso; intuition congruence.
Qed.

Lemma spec_ordersOfMarketV2_swap cfg s r p m :
  s ≠ r →
  spec_ordersOfMarketV2 cfg r s p m
  = map oppositeV2 (spec_ordersOfMarketV2 cfg s r p m).
Proof.
  intros Hne. unfold spec_ordersOfMarketV2.
  repeat case_bool_decide; simpl; try done;
    exfalso; intuition congruence.
Qed.

(** X2. Exchanging the sent and the received asset, for two different
    assets, yields the same orders on the same markets with the same
    clients, each in the opposite direction. *)
Theorem computeOrders_swap_pair
    (cfg : string) (marketsV1 : list V1.TDEXMarket)
    (marketsV2 : list V2.TDEXMarket)
    (sentAsset receivedAsset : string) (torProxy : option string) :
  sentAsset ≠ receivedAsset →
  computeOrdersV1 marketsV1 receivedAsset sentAsset torProxy
  = map oppositeV1
      (computeOrdersV1 marketsV1 sentAsset receivedAsset torProxy)
  ∧ computeOrdersV2 cfg marketsV2 receivedAsset sentAsset torProxy
    = map oppositeV2
        (computeOrdersV2 cfg marketsV2 sentAsset receivedAsset torProxy).
Proof.
  intros Hne.
  rewrite !computeOrdersV1_flat_map, !computeOrdersV2_flat_map. split.
  - induction marketsV1 as [|m ms IH]; [done|]. simpl.
    by rewrite map_app, IH, spec_ordersOfMarketV1_swap.
  - induction marketsV2 as [|m ms IH]; [done|]. simpl.
    by rewrite map_app, IH, spec_ordersOfMarketV2_swap.
Qed.

Lemma computeOrders_swap_pair_witness :
  computeOrdersV1 [sampleMarketV1] "usdt" "lbtc" None
  = map oppositeV1 (computeOrdersV1 [sampleMarketV1] "lbtc" "usdt" None)
  ∧ computeOrdersV2 sampleTorProxy [sampleMarketV2] "usdt" "lbtc" None
    = map oppositeV2
        (computeOrdersV2 sampleTorProxy [sampleMarketV2] "lbtc" "usdt" None).
Proof.
  apply (computeOrders_swap_pair sampleTorProxy [sampleMarketV1]
           [sampleMarketV2] "lbtc" "usdt" None).
  discriminate.
Defined.

(** X3. A call never returns more than two orders per market, and returns
    none for an empty catalog. *)
Theorem computeOrders_length_bound
    (cfg : string) (marketsV1 : list V1.TDEXMarket)
    (marketsV2 : list V2.TDEXMarket)
    (sentAsset receivedAsset : string) (torProxy : option string) :
  length (computeOrdersV1 marketsV1 sentAsset receivedAsset torProxy)
  ≤ 2 * length marketsV1
  ∧ length (computeOrdersV2 cfg marketsV2 sentAsset receivedAsset torProxy)
    ≤ 2 * length marketsV2.
Proof.
  rewrite computeOrdersV1_flat_map, computeOrdersV2_flat_map. split.
  - induction marketsV1 as [|m ms IH]; [done|]. simpl.
    rewrite length_app. unfold spec_ordersOfMarketV1 at 1.
    repeat case_bool_decide; simpl; lia.
  - induction marketsV2 as [|m ms IH]; [done|]. simpl.
    rewrite length_app. unfold spec_ordersOfMarketV2 at 1.
    repeat case_bool_decide; simpl; lia.
Qed.

(** X4. Every order is bound to a client of the provider of its own
    market: the client's URL is the endpoint of the market's provider, and
    its proxy is the [torProxy] passed to the call or, when there is none,
    ["https://proxy.tdex.network"] for V1 and [config.torProxy] for V2. *)
Theorem computeOrders_client_of_market
    (cfg : string) (marketsV1 : list V1.TDEXMarket)
    (marketsV2 : list V2.TDEXMarket)
    (sentAsset receivedAsset : string) (torProxy : option string) :
  Forall (λ o, providerUrl (V1.traderClient o)
               = endpoint (V1.provider (V1.market o))
               ∧ clientTorProxy (V1.traderClient o)
                 = default "https://proxy.tdex.network"%string torProxy)
         (computeOrdersV1 marketsV1 sentAsset receivedAsset torProxy)
  ∧ Forall (λ o, providerUrl (V2.traderClient o)
                 = endpoint (V2.provider (V2.market o))
                 ∧ clientTorProxy (V2.traderClient o) = default cfg torProxy)
           (computeOrdersV2 cfg marketsV2 sentAsset receivedAsset torProxy).
Proof.
  split; apply Forall_forall; intros o Ho; apply list_elem_of_In in Ho.
  - apply computeOrdersV1_In in Ho as (_ & -> & _). done.
  - apply computeOrdersV2_In in Ho as (_ & -> & _). done.
Qed.

(** ** Tradable assets *)

Lemma includes_elem (arr : list string) (x : string) :
  includes arr x = true ↔ x ∈ arr.
Proof.
  unfold includes. rewrite existsb_exists. split.
  - intros (y & Hy & Heq). apply String.eqb_eq in Heq as ->.
    by apply list_elem_of_In.
  - intros Hx. exists x. split; [by apply list_elem_of_In|].
    apply String.eqb_refl.
Qed.

Lemma includes_not_elem (arr : list string) (x : string) :
  includes arr x = false ↔ x ∉ arr.
Proof.
  rewrite <- includes_elem. by destruct (includes arr x).
Qed.

(** A conditional push of an asset not yet listed. *)
Lemma push_unless_included_elem (c : bool) (t : list string) (y x : string) :
  x ∈ (if c && negb (includes t y) then t ++ [y] else t)
  ↔ x ∈ t ∨ (c = true ∧ x = y).
Proof.
  destruct c; simpl.
  - destruct (includes t y) eqn:Hin; simpl.
    + apply includes_elem in Hin. split; [tauto|].
      intros [?|[_ ->]]; done.
    + rewrite elem_of_app, list_elem_of_singleton. tauto.
  - split; [tauto|]. intros [?|[? _]]; done.
Qed.

Lemma push_unless_included_NoDup (c : bool) (t : list string) (y : string) :
  NoDup t → NoDup (if c && negb (includes t y) then t ++ [y] else t).
Proof.
  intros Hnd. destruct c; simpl; [|done].
  destruct (includes t y) eqn:Hin; simpl; [done|].
  apply includes_not_elem in Hin.
  apply NoDup_app. split; [done|]. split; [|apply NoDup_singleton].
  intros x Hx ->%list_elem_of_singleton. done.
Qed.

Lemma getTradablesAssets_step_elem asset t b q x :
  x ∈ getTradablesAssets_step asset t b q
  ↔ x ∈ t ∨ pairsWith asset x b q.
Proof.
  unfold getTradablesAssets_step, pairsWith.
  rewrite !push_unless_included_elem.
  destruct (String.eqb_spec asset b), (String.eqb_spec asset q);
    intuition congruence.
Qed.

Lemma getTradablesAssets_step_NoDup asset t b q :
  NoDup t → NoDup (getTradablesAssets_step asset t b q).
Proof.
  intros Hnd. unfold getTradablesAssets_step.
  by apply push_unless_included_NoDup, push_unless_included_NoDup.
Qed.

Lemma getTradablesAssets_loop_elem {A} (fb fq : A → string) asset
    (ms : list A) : ∀ t x,
  x ∈ fold_left (λ tradable market,
                   getTradablesAssets_step asset tradable
                     (fb market) (fq market)) ms t
  ↔ x ∈ t ∨ ∃ m, In m ms ∧ pairsWith asset x (fb m) (fq m).
Proof.
  induction ms as [|m ms IH]; intros t x; simpl.
  - split; [tauto|]. intros [?|(? & [] & _)]. done.
  - rewrite IH, getTradablesAssets_step_elem. split.
    + intros [[?|?]|(m' & ? & ?)]; eauto.
    + intros [?|(m' & [<-|?] & ?)]; eauto.
Qed.

Lemma getTradablesAssets_loop_NoDup {A} (fb fq : A → string) asset
    (ms : list A) : ∀ t,
  NoDup t →
  NoDup (fold_left (λ tradable market,
                      getTradablesAssets_step asset tradable
                        (fb market) (fq market)) ms t).
Proof.
  induction ms as [|m ms IH]; intros t Hnd; simpl; [done|].
  by apply IH, getTradablesAssets_step_NoDup.
Qed.

Lemma getTradablesAssets_elem m1 m2 asset x :
  x ∈ getTradablesAssets m1 m2 asset
  ↔ (∃ m, In m m1 ∧ pairsWith asset x (V1.baseAsset m) (V1.quoteAsset m))
    ∨ (∃ m, In m m2 ∧ pairsWith asset x (V2.baseAsset m) (V2.quoteAsset m)).
Proof.
  unfold getTradablesAssets.
  rewrite (getTradablesAssets_loop_elem V2.baseAsset V2.quoteAsset).
  rewrite (getTradablesAssets_loop_elem V1.baseAsset V1.quoteAsset).
  rewrite elem_of_nil. tauto.
Qed.

Lemma computeOrdersV1_nonempty ms s r p :
  computeOrdersV1 ms s r p ≠ []
  ↔ ∃ m, In m ms ∧ pairsWith s r (V1.baseAsset m) (V1.quoteAsset m).
Proof.
  unfold pairsWith. split.
  - destruct (computeOrdersV1 ms s r p) as [|o os] eqn:Heq; [done|].
    intros _. assert (Ho : In o (computeOrdersV1 ms s r p))
      by (rewrite Heq; by left).
    apply computeOrdersV1_In in Ho as (Hm & _ & Ht).
    exists (V1.market o). split; [done|]. destruct (V1.type o); tauto.
  - intros (m & Hm & Hp) Hnil.
    assert (Ho : ∃ o, In o (computeOrdersV1 ms s r p)).
    { destruct Hp as [Hp|Hp].
      - exists (V1.mkOrder m V1.SELL
                  (createTraderClientV1 (endpoint (V1.provider m)) p)).
        by apply computeOrdersV1_In.
      - exists (V1.mkOrder m V1.BUY
                  (createTraderClientV1 (endpoint (V1.provider m)) p)).
        by apply computeOrdersV1_In. }
    destruct Ho as [o Ho]. rewrite Hnil in Ho. destruct Ho.
Qed.

Lemma computeOrdersV2_nonempty cfg ms s r p :
  computeOrdersV2 cfg ms s r p ≠ []
  ↔ ∃ m, In m ms ∧ pairsWith s r (V2.baseAsset m) (V2.quoteAsset m).
Proof.
  unfold pairsWith. split.
  - destruct (computeOrdersV2 cfg ms s r p) as [|o os] eqn:Heq; [done|].
    intros _. assert (Ho : In o (computeOrdersV2 cfg ms s r p))
      by (rewrite Heq; by left).
    apply computeOrdersV2_In in Ho as (Hm & _ & Ht).
    exists (V2.market o). split; [done|]. destruct (V2.type o); tauto.
  - intros (m & Hm & Hp) Hnil.
    assert (Ho : ∃ o, In o (computeOrdersV2 cfg ms s r p)).
    { destruct Hp as [Hp|Hp].
      - exists (V2.mkOrder m V2.SELL
                  (createTraderClientV2 cfg (endpoint (V2.provider m)) p)).
        by apply computeOrdersV2_In.
      - exists (V2.mkOrder m V2.BUY
                  (createTraderClientV2 cfg (endpoint (V2.provider m)) p)).
        by apply computeOrdersV2_In. }
    destruct Ho as [o Ho]. rewrite Hnil in Ho. destruct Ho.
Qed.

(** X5. [getTradablesAssets] never lists an asset twice, whatever the
    markets are and however often a pair occurs in them. *)
Theorem getTradablesAssets_NoDup
    (markets_v1 : list V1.TDEXMarket) (markets_v2 : list V2.TDEXMarket)
    (asset : string) :
  NoDup (getTradablesAssets markets_v1 markets_v2 asset).
Proof.
  unfold getTradablesAssets.
  apply (getTradablesAssets_loop_NoDup V2.baseAsset V2.quoteAsset).
  apply (getTradablesAssets_loop_NoDup V1.baseAsset V1.quoteAsset).
  apply NoDup_nil_2.
Qed.

(** X6. An asset is listed by [getTradablesAssets] exactly when some V1 or
    V2 market pairs it with the given asset: as quote asset of a market
    whose base asset is the given one, or as base asset of a market whose
    quote asset is the given one. *)
Theorem getTradablesAssets_listed
    (markets_v1 : list V1.TDEXMarket) (markets_v2 : list V2.TDEXMarket)
    (asset other : string) :
  In other (getTradablesAssets markets_v1 markets_v2 asset)
  ↔ (∃ m, In m markets_v1
          ∧ ((asset = V1.baseAsset m ∧ other = V1.quoteAsset m)
             ∨ (asset = V1.quoteAsset m ∧ other = V1.baseAsset m)))
    ∨ (∃ m, In m markets_v2
            ∧ ((asset = V2.baseAsset m ∧ other = V2.quoteAsset m)
               ∨ (asset = V2.quoteAsset m ∧ other = V2.baseAsset m))).
Proof.
  rewrite <- list_elem_of_In. apply getTradablesAssets_elem.
Qed.

(** X7. The assets listed by [getTradablesAssets] for an asset are exactly
    those for which [computeOrdersV1] or [computeOrdersV2] finds a
    candidate order when the asset is sent. *)
Theorem getTradablesAssets_iff_candidate_order
    (cfg : string)
    (markets_v1 : list V1.TDEXMarket) (markets_v2 : list V2.TDEXMarket)
    (asset other : string) (torProxy : option string) :
  In other (getTradablesAssets markets_v1 markets_v2 asset)
  ↔ computeOrdersV1 markets_v1 asset other torProxy ≠ []
    ∨ computeOrdersV2 cfg markets_v2 asset other torProxy ≠ [].
Proof.
  rewrite <- list_elem_of_In, getTradablesAssets_elem.
  by rewrite computeOrdersV1_nonempty, computeOrdersV2_nonempty.
Qed.

(** X8. Being tradable is symmetric: an asset is listed for another one
    exactly when the other one is listed for it. *)
Theorem getTradablesAssets_symmetric
    (markets_v1 : list V1.TDEXMarket) (markets_v2 : list V2.TDEXMarket)
    (a b : string) :
  In b (getTradablesAssets markets_v1 markets_v2 a)
  ↔ In a (getTradablesAssets markets_v1 markets_v2 b).
Proof.
  rewrite <- !list_elem_of_In, !getTradablesAssets_elem.
  unfold pairsWith. split; intros [(m & ? & ?)|(m & ? & ?)];
    [left|right|left|right]; exists m; tauto.
Qed.

(** X9. For two non-empty asset names, [discoverBestOrder] returns its
    closure exactly when the asset to receive is listed by
    [getTradablesAssets] for the asset to send; otherwise it throws the
    no-liquidity error. *)
Theorem discoverBestOrder_succeeds_iff_tradable
    (cfg : string)
    (d1 : list V1.TradeOrder → string → Z → result (list V1.TradeOrder))
    (d2 : list V2.TradeOrder → string → Z → result (list V2.TradeOrder))
    (m1 : list V1.TDEXMarket) (m2 : list V2.TDEXMarket)
    (sendAsset receiveAsset : string) :
  sendAsset ≠ EmptyString → receiveAsset ≠ EmptyString →
  ((∃ closure,
      outcome (discoverBestOrder cfg d1 d2 m1 m2
                 (Some sendAsset) (Some receiveAsset)) = Ok closure)
   ↔ In receiveAsset (getTradablesAssets m1 m2 sendAsset))
  ∧ (¬ In receiveAsset (getTradablesAssets m1 m2 sendAsset) →
     outcome (discoverBestOrder cfg d1 d2 m1 m2
                (Some sendAsset) (Some receiveAsset))
     = Throw NoMarketsAvailableForSelectedPairError).
Proof.
  intros Hs Hr.
  rewrite <- !list_elem_of_In, getTradablesAssets_elem.
  rewrite <- computeOrdersV1_nonempty with (p := None).
  rewrite <- computeOrdersV2_nonempty with (cfg := cfg) (p := None).
  unfold discoverBestOrder.
  destruct (String.eqb_spec sendAsset EmptyString); [done|].
  destruct (String.eqb_spec receiveAsset EmptyString); [done|].
  simpl.
  destruct (computeOrdersV1 m1 sendAsset receiveAsset None) as [|o1 c1];
    destruct (computeOrdersV2 cfg m2 sendAsset receiveAsset None)
      as [|o2 c2]; simpl.
  - split; [|done]. split; [intros [c [=]]|intros [?|?]; done].
  - split; [|intros Hn; exfalso; apply Hn; by right].
    split; [by right|intros _; by eexists].
  - split; [|intros Hn; exfalso; apply Hn; by left].
    split; [by left|intros _; by eexists].
  - split; [|intros Hn; exfalso; apply Hn; by left].
    split; [by left|intros _; by eexists].
Qed.

Lemma discoverBestOrder_succeeds_iff_tradable_witness :
  ((∃ closure,
      outcome (discoverBestOrder sampleTorProxy keepAllV1 keepAllV2
                 [sampleMarketV1] [sampleMarketV2]
                 (Some "usdt"%string) (Some "lbtc"%string)) = Ok closure)
   ↔ In "lbtc"%string
        (getTradablesAssets [sampleMarketV1] [sampleMarketV2] "usdt"))
  ∧ (¬ In "lbtc"%string
         (getTradablesAssets [sampleMarketV1] [sampleMarketV2] "usdt") →
     outcome (discoverBestOrder sampleTorProxy keepAllV1 keepAllV2
                [sampleMarketV1] [sampleMarketV2]
                (Some "usdt"%string) (Some "lbtc"%string))
     = Throw NoMarketsAvailableForSelectedPairError).
Proof.
  apply (discoverBestOrder_succeeds_iff_tradable sampleTorProxy
           keepAllV1 keepAllV2 [sampleMarketV1] [sampleMarketV2]
           "usdt" "lbtc"); discriminate.
Defined.

(** ** Best-order selector *)


(** X11. The closure of [discoverBestOrder] never rejects, and it resolves
    to [undefined] only for a positive amount when there is no V1
    candidate: with at least one V1 candidate the caller always receives
    an order. *)
Theorem discoverBestOrder_closure_always_resolves
    (d1 : list V1.TradeOrder → string → Z → result (list V1.TradeOrder))
    (d2 : list V2.TradeOrder → string → Z → result (list V2.TradeOrder))
    (allPossibleOrdersV1 : list V1.TradeOrder)
    (allPossibleOrdersV2 : list V2.TradeOrder)
    (sats : Z) (asset : string) :
  allPossibleOrdersV1 ≠ [] ∨ allPossibleOrdersV2 ≠ [] →
  ∃ v,
    outcome (discoverBestOrder_closure d1 d2 allPossibleOrdersV1
               allPossibleOrdersV2 sats asset) = Ok v
    ∧ (v = None → (0 < sats)%Z ∧ allPossibleOrdersV1 = []).
Proof.
  intros Hne. unfold discoverBestOrder_closure.
  destruct (Z.leb_spec sats 0) as [Hle|Hlt].
  - eexists. split; [reflexivity|].
    destruct allPossibleOrdersV1, allPossibleOrdersV2; simpl;
      try discriminate. by destruct Hne.
  - unfold awaitDiscoverV1, awaitDiscoverV2.
    assert (Hhead : OrderV1 <$> head allPossibleOrdersV1 = None →
                    (0 < sats)%Z ∧ allPossibleOrdersV1 = []).
    { by destruct allPossibleOrdersV1. }
    destruct (d1 allPossibleOrdersV1 asset sats) as [b1|e1]; simpl;
      [|by eexists].
    destruct (d2 allPossibleOrdersV2 asset sats) as [b2|e2]; simpl;
      [|by eexists].
    destruct b1 as [|o1 b1], b2 as [|o2 b2]; simpl;
      eexists; (split; [reflexivity|]); done.
Qed.

Lemma discoverBestOrder_closure_always_resolves_witness :
  ∃ v,
    outcome (discoverBestOrder_closure rejectingV1 keepAllV2
               [] (computeOrdersV2 sampleTorProxy [sampleMarketV2]
                                   "lbtc" "usdt" None)
               100 "lbtc") = Ok v
    ∧ (v = None → (0 < 100)%Z ∧ @nil V1.TradeOrder = []).
Proof.
  apply (discoverBestOrder_closure_always_resolves rejectingV1 keepAllV2
           [] (computeOrdersV2 sampleTorProxy [sampleMarketV2]
                               "lbtc" "usdt" None)
           100%Z "lbtc").
  right. discriminate.
Defined.

(** X12. When the V1 discovery run rejects, the V2 discoverer is never
    run: the closure makes the single V1 call, logs the error once and
    resolves to the first V1 candidate. *)
Theorem discoverBestOrder_closure_V1_rejection_skips_V2
    (d1 : list V1.TradeOrder → string → Z → result (list V1.TradeOrder))
    (d2 : list V2.TradeOrder → string → Z → result (list V2.TradeOrder))
    (allPossibleOrdersV1 : list V1.TradeOrder)
    (allPossibleOrdersV2 : list V2.TradeOrder)
    (sats : Z) (asset : string) (err : error) :
  (0 < sats)%Z →
  d1 allPossibleOrdersV1 asset sats = Throw err →
  discoverBestOrder_closure d1 d2 allPossibleOrdersV1 allPossibleOrdersV2
    sats asset
  = ([DiscoverV1 allPossibleOrdersV1 asset sats; ConsoleErrorObject err],
     Ok (OrderV1 <$> head allPossibleOrdersV1)).
Proof.
  intros Hpos Hd. unfold discoverBestOrder_closure.
  replace (sats <=? 0)%Z with false by (symmetry; apply Z.leb_gt; lia).
  unfold awaitDiscoverV1. by rewrite Hd.
Qed.

Lemma discoverBestOrder_closure_V1_rejection_skips_V2_witness :
  discoverBestOrder_closure rejectingV1 keepAllV2
    (computeOrdersV1 [sampleMarketV1] "lbtc" "usdt" None)
    (computeOrdersV2 sampleTorProxy [sampleMarketV2] "lbtc" "usdt" None)
    100 "lbtc"
  = ([DiscoverV1 (computeOrdersV1 [sampleMarketV1] "lbtc" "usdt" None)
                 "lbtc" 100;
      ConsoleErrorObject (Error "connection refused")],
     Ok (OrderV1 <$>
           head (computeOrdersV1 [sampleMarketV1] "lbtc" "usdt" None))).
Proof.
  apply (discoverBestOrder_closure_V1_rejection_skips_V2 rejectingV1
           keepAllV2 _ _ 100%Z "lbtc" (Error "connection refused"));
    [lia | reflexivity].
Defined.

(** X13. For a positive amount both discoverers, when they run, are given
    the full candidate list of their version with the asset and the amount
    of the call, V1 first; the closure makes at most two network calls. *)
Theorem discoverBestOrder_closure_network_calls
    (d1 : list V1.TradeOrder → string → Z → result (list V1.TradeOrder))
    (d2 : list V2.TradeOrder → string → Z → result (list V2.TradeOrder))
    (allPossibleOrdersV1 : list V1.TradeOrder)
    (allPossibleOrdersV2 : list V2.TradeOrder)
    (sats : Z) (asset : string) :
  List.filter isNetworkCall
    (trace (discoverBestOrder_closure d1 d2 allPossibleOrdersV1
              allPossibleOrdersV2 sats asset))
  = if (sats <=? 0)%Z then []
    else match d1 allPossibleOrdersV1 asset sats with
         | Ok _ => [DiscoverV1 allPossibleOrdersV1 asset sats;
                    DiscoverV2 allPossibleOrdersV2 asset sats]
         | Throw _ => [DiscoverV1 allPossibleOrdersV1 asset sats]
         end.
Proof.
  unfold discoverBestOrder_closure.
  destruct (sats <=? 0)%Z; [done|].
  unfold awaitDiscoverV1, awaitDiscoverV2.
  destruct (d1 allPossibleOrdersV1 asset sats) as [b1|e1]; simpl; [|done].
  destruct (d2 allPossibleOrdersV2 asset sats) as [b2|e2]; simpl; [|done].
  by destruct ((length b1 =? 0) && (length b2 =? 0)).
Qed.

(** ** Confidential input resolver *)

Lemma StronglySorted_lt_seq (start len : nat) :
  StronglySorted lt (seq start len).
Proof.
  revert start. induction len as [|len IH]; intros start; simpl.
  - constructor.
  - constructor; [apply IH|].
    apply List.Forall_forall. intros i Hi%in_seq. lia.
Qed.

Lemma StronglySorted_lt_filter (f : nat → bool) (l : list nat) :
  StronglySorted lt l → StronglySorted lt (List.filter f l).
Proof.
  induction 1 as [|x l Hs IH Hall]; simpl; [constructor|].
  destruct (f x); [|done]. constructor; [done|].
  apply List.Forall_forall. intros y [Hy _]%filter_In.
  rewrite List.Forall_forall in Hall. by apply Hall.
Qed.

(** X14. The entries of the result are in the order of the template: their
    input indices are strictly increasing, and there are at most as many
    entries as the template has inputs. *)
Theorem psetToUnblindedInputs_in_template_order
    {ScriptDetails : Type} (outpointToString : Outpoint → string)
    (state : @WalletState ScriptDetails) (pset : Pset) :
  ∃ unblindedInputs,
    psetToUnblindedInputs outpointToString state pset = Ok unblindedInputs
    ∧ StronglySorted lt (map UnblindedInput.index unblindedInputs)
    ∧ length unblindedInputs ≤ length (inputs pset).
Proof.
  eexists. split; [apply psetToUnblindedInputs_eq|]. split.
  - rewrite map_index_omap_entryAt.
    apply StronglySorted_lt_filter, StronglySorted_lt_filter,
      StronglySorted_lt_seq.
  - rewrite <- (length_map UnblindedInput.index), map_index_omap_entryAt.
    etrans; [apply List.filter_length_le|].
    etrans; [apply List.filter_length_le|]. by rewrite length_seq.
Qed.

(** X15. A template without inputs, a wallet with an empty script index and
    a wallet with an empty output history all give the empty result, not
    an error. *)
Theorem psetToUnblindedInputs_nothing_known
    {ScriptDetails : Type} (outpointToString : Outpoint → string)
    (state : @WalletState ScriptDetails) (pset : Pset) :
  inputs pset = [] ∨ scriptDetails state = ∅ ∨ outputHistory state = ∅ →
  psetToUnblindedInputs outpointToString state pset = Ok [].
Proof.
  intros H. rewrite psetToUnblindedInputs_eq. f_equal.
  destruct (omap _ _) as [|u us] eqn:Heq; [done|]. exfalso.
  assert (Hu : u ∈ u :: us) by left. rewrite <- Heq in Hu.
  apply list_elem_of_omap in Hu as (i & Hi & He).
  apply list_elem_of_In, filter_In in Hi as [Hi Hown].
  apply ownedAt_walletOwned in Hown as (input & w & Hin & _ & [sd Hsd]).
  apply entryAt_Some in He as (data & (input' & o & _ & Ho & _) & _).
  destruct H as [H|[H|H]].
  - by rewrite H in Hin.
  - by rewrite H, lookup_empty in Hsd.
  - by rewrite H, lookup_empty in Ho.
Qed.

Lemma psetToUnblindedInputs_nothing_known_witness :
  psetToUnblindedInputs spec_outpointToString
    (mkWalletState (scriptDetails sampleWallet) ∅) samplePset
  = Ok [].
Proof.
  apply (psetToUnblindedInputs_nothing_known spec_outpointToString
           (mkWalletState (scriptDetails sampleWallet) ∅) samplePset).
  right. right. reflexivity.
Defined.

(** X16. When every input of the template is wallet-owned and has cached
    blinding data, the result covers the template: it has one entry per
    input, with the indices 0, 1, ... in order. *)
Theorem psetToUnblindedInputs_full_coverage
    {ScriptDetails : Type} (outpointToString : Outpoint → string)
    (state : @WalletState ScriptDetails) (pset : Pset) :
  (∀ i, i < length (inputs pset) →
        walletOwned state pset i
        ∧ ∃ data, cachedBlindingData outpointToString state pset i data) →
  ∃ unblindedInputs,
    psetToUnblindedInputs outpointToString state pset = Ok unblindedInputs
    ∧ map UnblindedInput.index unblindedInputs
      = seq 0 (length (inputs pset)).
Proof.
  intros Hall. eexists. split; [apply psetToUnblindedInputs_eq|].
  rewrite map_index_omap_entryAt.
  assert (Hseq : ∀ i, In i (seq 0 (length (inputs pset)))
                      → i < length (inputs pset)).
  { intros i Hi%in_seq. lia. }
  revert Hseq. generalize (seq 0 (length (inputs pset))) as l.
  induction l as [|i l IH]; intros Hl; [done|]. simpl.
  destruct (Hall i (Hl i (or_introl eq_refl))) as (Hown & data & Hc).
  apply ownedAt_walletOwned in Hown. rewrite Hown. simpl.
  rewrite bool_decide_eq_true_2.
  - f_equal. apply IH. intros j Hj. apply Hl. by right.
  - exists (unblindedInputOf i data). apply entryAt_Some. by exists data.
Qed.

Lemma psetToUnblindedInputs_full_coverage_witness :
  ∃ unblindedInputs,
    psetToUnblindedInputs spec_outpointToString sampleWallet
      (mkPset [mkPsetInput [x05; x06] 2 (Some (mkWitnessUtxo [xcc]))])
    = Ok unblindedInputs
    ∧ map UnblindedInput.index unblindedInputs = seq 0 1.
Proof.
  apply (psetToUnblindedInputs_full_coverage spec_outpointToString
           sampleWallet
           (mkPset [mkPsetInput [x05; x06] 2 (Some (mkWitnessUtxo [xcc]))])).
  intros i Hi. simpl in Hi. assert (i = 0) as -> by lia. split.
  - eexists _, _. split; [reflexivity|]. split; [reflexivity|].
    vm_compute. eauto.
  - eexists. eexists _, _. split; [reflexivity|]. split; reflexivity.
Defined.

(** X17. The byte reversal applied to the blinding factors is an
    involution on hexadecimal renderings of buffers: applied twice it gives
    the recorded factor back, and it keeps its length, two characters per
    byte. *)
Theorem reverseHex_involutive (buf : list Byte.byte) :
  reverseHex (reverseHex (toHex buf)) = toHex buf
  ∧ String.length (reverseHex (toHex buf)) = 2 * length buf.
Proof.
  rewrite !reverseHex_toHex, rev_involutive. split; [done|].
  rewrite <- (length_rev buf). generalize (rev buf) as l.
  induction l as [|b l IH]; [done|].
  change (String.length (toHex (b :: l)))
    with (S (S (String.length (toHex l)))).
  rewrite IH. simpl. lia.
Qed.

(** ** Clear-text Tor proxy URL *)

Lemma String_split_nonempty sep s : String_split sep s ≠ [].
Proof.
  destruct s as [|c s]; simpl; [done|].
  destruct (Ascii.eqb c sep); [done|]. by destruct (String_split sep s).
Qed.

Lemma String_split_free sep s :
  freeOf sep s = true → String_split sep s = [s].
Proof.
  induction s as [|c s IH]; simpl; [done|].
  destruct (Ascii.eqb c sep); simpl; [done|]. intros H. by rewrite IH.
Qed.

Lemma String_split_app sep a b :
  String_split sep (a +:+ String sep b)
  = String_split sep a ++ String_split sep b.
Proof.
  induction a as [|c a IH]; simpl.
  - by rewrite Ascii.eqb_refl.
  - destruct (Ascii.eqb c sep); simpl; [by rewrite IH|].
    rewrite IH. pose proof (String_split_nonempty sep a).
    by destruct (String_split sep a).
Qed.

(** Joining the pieces of a split with the separator gives the string
    back. *)
Lemma Array_join_String_split sep s :
  Array_join (String sep EmptyString) (String_split sep s) = s.
Proof.
  induction s as [|c s IH]; simpl; [done|].
  destruct (Ascii.eqb_spec c sep) as [->|Hne].
  - pose proof (String_split_nonempty sep s).
    destruct (String_split sep s) as [|p ps] eqn:Hs; [done|].
    simpl in *. by rewrite IH.
  - pose proof (String_split_nonempty sep s).
    destruct (String_split sep s) as [|p ps] eqn:Hs; [done|].
    destruct ps as [|q ps]; simpl in *; by rewrite <- IH.
Qed.

(** X18. [getClearTextTorProxyUrl] drops the last dot-separated label of
    the host name, whatever that label is, and appends what is left to the
    proxy endpoint after a slash; for a host name without a dot nothing is
    left and the result is the endpoint followed by a slash. *)
Theorem getClearTextTorProxyUrl_drops_last_label
    (torProxyEndpoint onionPubKey lastLabel : string) :
  freeOf "." lastLabel = true →
  getClearTextTorProxyUrl torProxyEndpoint
    (mkURL (onionPubKey +:+ "." +:+ lastLabel))
  = torProxyEndpoint +:+ "/" +:+ onionPubKey
  ∧ getClearTextTorProxyUrl torProxyEndpoint (mkURL lastLabel)
    = torProxyEndpoint +:+ "/".
Proof.
  intros Hfree. unfold getClearTextTorProxyUrl, Array_pop. simpl hostname.
  split.
  - change ("." +:+ lastLabel) with (String "." lastLabel).
    rewrite String_split_app, (String_split_free _ lastLabel Hfree).
    by rewrite removelast_last, Array_join_String_split.
  - by rewrite (String_split_free _ lastLabel Hfree).
Qed.

Lemma getClearTextTorProxyUrl_drops_last_label_witness :
  getClearTextTorProxyUrl "https://proxy.tdex.network"
    (mkURL "abcdefghij234567.onion")
  = "https://proxy.tdex.network/abcdefghij234567"%string
  ∧ getClearTextTorProxyUrl "https://proxy.tdex.network" (mkURL "onion")
    = "https://proxy.tdex.network/"%string.
Proof.
  apply (getClearTextTorProxyUrl_drops_last_label
           "https://proxy.tdex.network" "abcdefghij234567" "onion").
  reflexivity.
Defined.

(** ** Trade preview *)

(** X19. For an amount at most zero, [previewTradeV1] and [previewTradeV2]
    send no request and resolve to [undefined]. *)
Theorem previewTrade_nonpositive_amount
    {PreviewV1 PreviewV2 : Type}
    (p1 : TraderClient → PreviewRequestV1.t → result (list PreviewV1))
    (p2 : TraderClient → PreviewRequestV2.t → result (list PreviewV2))
    (orderV1 : V1.TradeOrder) (orderV2 : V2.TradeOrder)
    (sats : Z) (asset : string) :
  (sats ≤ 0)%Z →
  previewTradeV1 p1 orderV1 sats asset = ([], Ok None)
  ∧ previewTradeV2 p2 orderV2 sats asset = ([], Ok None).
Proof.
  intros Hle. unfold previewTradeV1, previewTradeV2.
  by replace (sats <=? 0)%Z with true by (symmetry; apply Z.leb_le; lia).
Qed.

Lemma previewTrade_nonpositive_amount_witness :
  previewTradeV1 noPreviewV1 sampleBuyOrderV1 0 "lbtc" = ([], Ok None)
  ∧ previewTradeV2 noPreviewV2 sampleBuyOrderV2 0 "lbtc" = ([], Ok None).
Proof.
  apply (previewTrade_nonpositive_amount noPreviewV1 noPreviewV2
           sampleBuyOrderV1 sampleBuyOrderV2 0%Z "lbtc"). lia.
Defined.

(** X20. For a positive amount and a candidate order of
    [computeOrdersV2], [previewTradeV2] sends exactly one request, through
    a client of the provider of the order's market; the request carries the
    amount in decimal, and its fee asset is the quote asset of the market:
    the received asset for a SELL order, the sent asset for a BUY order. *)
Theorem previewTradeV2_request_of_candidate
    {PreviewV2 : Type}
    (p2 : TraderClient → PreviewRequestV2.t → result (list PreviewV2))
    (cfg : string) (markets : list V2.TDEXMarket)
    (sentAsset receivedAsset : string) (torProxy : option string)
    (order : V2.TradeOrder) (sats : Z) (asset : string) :
  In order (computeOrdersV2 cfg markets sentAsset receivedAsset torProxy) →
  (0 < sats)%Z →
  ∃ client request,
    fst (previewTradeV2 p2 order sats asset)
    = [PreviewTradeV2 client request]
    ∧ providerUrl client = endpoint (V2.provider (V2.market order))
    ∧ PreviewRequestV2.market request = V2.market order
    ∧ PreviewRequestV2.type request = V2.type order
    ∧ PreviewRequestV2.amount request = pretty sats
    ∧ PreviewRequestV2.asset request = asset
    ∧ PreviewRequestV2.feeAsset request
      = match V2.type order with
        | V2.SELL => receivedAsset
        | V2.BUY => sentAsset
        end.
Proof.
  intros Ho Hpos. apply computeOrdersV2_In in Ho as (_ & Hc & Ht).
  unfold previewTradeV2.
  replace (sats <=? 0)%Z with false by (symmetry; apply Z.leb_gt; lia).
  eexists _, _. split; [reflexivity|]. simpl. rewrite Hc. simpl.
  repeat split. destruct (V2.type order); by destruct Ht.
Qed.

Lemma previewTradeV2_request_of_candidate_witness :
  ∃ client request,
    fst (previewTradeV2 noPreviewV2 sampleSellOrderV2 100 "lbtc")
    = [PreviewTradeV2 client request]
    ∧ providerUrl client
      = endpoint (V2.provider (V2.market sampleSellOrderV2))
    ∧ PreviewRequestV2.market request = V2.market sampleSellOrderV2
    ∧ PreviewRequestV2.type request = V2.type sampleSellOrderV2
    ∧ PreviewRequestV2.amount request = pretty 100%Z
    ∧ PreviewRequestV2.asset request = "lbtc"%string
    ∧ PreviewRequestV2.feeAsset request
      = match V2.type sampleSellOrderV2 with
        | V2.SELL => "usdt"%string
        | V2.BUY => "lbtc"%string
        end.
Proof.
  apply (previewTradeV2_request_of_candidate noPreviewV2 sampleTorProxy
           [sampleMarketV2] "lbtc" "usdt" None sampleSellOrderV2 100%Z
           "lbtc"); [left; reflexivity | lia].
Defined.

(** ** Trade executor *)

Section TradeExecutorProofs.

Context {CoinSelectionForTrade SignerInterface ScriptDetails : Type}.
Context {TradeV1 TradeV2 : Type}.
Variable noMarketsMessage : string.
Variable TradeV1_new :
  TradeOpts CoinSelectionForTrade SignerInterface → option string
  → result TradeV1.
Variable TradeV1_buy TradeV1_sell :
  TradeV1 → TradeArgs V1.TDEXMarket ScriptDetails → result (option string).
Variable TradeV2_new :
  TradeOpts CoinSelectionForTrade SignerInterface → option string
  → result TradeV2.
Variable TradeV2_buy TradeV2_sell :
  TradeV2 → TradeArgs V2.TDEXMarket ScriptDetails → result (option string).

Variables (known_amount : Z) (known_asset explorerLiquidAPI : string).
Variables (coinSelectionForTrade : CoinSelectionForTrade).
Variables (signer : SignerInterface) (masterBlindingKey network : string).
Variables (addressForChangeOutput addressForSwapOutput : ScriptDetails).
Variable torProxy : option string.

(** X21. [makeTradeV1] and [makeTradeV2] never resolve to an empty
    transaction id: when they resolve, the id is a non-empty string, the one
    the trade flow of the order's direction resolved to, and nothing was
    logged. *)
Theorem makeTrade_broadcast_txid
    (orderV1 : V1.TradeOrder) (orderV2 : V2.TradeOrder) (txid : string) :
  let runV1 :=
    makeTradeV1 noMarketsMessage TradeV1_new TradeV1_buy TradeV1_sell
      orderV1 known_amount known_asset explorerLiquidAPI
      coinSelectionForTrade signer masterBlindingKey network
      addressForChangeOutput addressForSwapOutput torProxy in
  let runV2 :=
    makeTradeV2 noMarketsMessage TradeV2_new TradeV2_buy TradeV2_sell
      orderV2 known_amount known_asset explorerLiquidAPI
      coinSelectionForTrade signer masterBlindingKey network
      addressForChangeOutput addressForSwapOutput torProxy in
  let optsV1 :=
    mkTradeOpts explorerLiquidAPI (providerUrl (V1.traderClient orderV1))
      coinSelectionForTrade network masterBlindingKey signer in
  let optsV2 :=
    mkTradeOpts explorerLiquidAPI (providerUrl (V2.traderClient orderV2))
      coinSelectionForTrade network masterBlindingKey signer in
  let argsV1 :=
    mkTradeArgs known_amount known_asset (V1.market orderV1)
      addressForSwapOutput addressForChangeOutput in
  let argsV2 :=
    mkTradeArgs known_amount known_asset (V2.market orderV2)
      addressForSwapOutput addressForChangeOutput in
  (snd runV1 = Broadcast txid →
   txid ≠ EmptyString
   ∧ ∃ trader,
       TradeV1_new optsV1 torProxy = Ok trader
       ∧ match V1.type orderV1 with
         | V1.BUY =>
             TradeV1_buy trader argsV1 = Ok (Some txid)
             ∧ fst runV1 = [TradeBuy argsV1]
         | V1.SELL =>
             TradeV1_sell trader argsV1 = Ok (Some txid)
             ∧ fst runV1 = [TradeSell argsV1]
         end)
  ∧ (snd runV2 = Broadcast txid →
     txid ≠ EmptyString
     ∧ ∃ trader,
         TradeV2_new optsV2 torProxy = Ok trader
         ∧ match V2.type orderV2 with
           | V2.BUY =>
               TradeV2_buy trader argsV2 = Ok (Some txid)
               ∧ fst runV2 = [TradeBuy argsV2]
           | V2.SELL =>
               TradeV2_sell trader argsV2 = Ok (Some txid)
               ∧ fst runV2 = [TradeSell argsV2]
           end).
Proof.
  intros runV1 runV2 optsV1 optsV2 argsV1 argsV2.
  subst runV1 runV2 optsV1 optsV2 argsV1 argsV2. split.
  - unfold makeTradeV1.
    destruct (TradeV1_new _ torProxy) as [trader|e];
      [|simpl; discriminate].
    destruct orderV1 as [m [] c]; simpl.
    + destruct (TradeV1_buy trader _) as [[t|]|e] eqn:Hflow; simpl;
        try discriminate.
      destruct (String.eqb_spec t EmptyString); simpl; [discriminate|].
      intros [= <-]. split; [done|]. by exists trader.
    + destruct (TradeV1_sell trader _) as [[t|]|e] eqn:Hflow; simpl;
        try discriminate.
      destruct (String.eqb_spec t EmptyString); simpl; [discriminate|].
      intros [= <-]. split; [done|]. by exists trader.
  - unfold makeTradeV2.
    destruct (TradeV2_new _ torProxy) as [trader|e];
      [|simpl; discriminate].
    destruct orderV2 as [m [] c]; simpl.
    + destruct (TradeV2_buy trader _) as [[t|]|e] eqn:Hflow; simpl;
        try discriminate.
      destruct (String.eqb_spec t EmptyString); simpl; [discriminate|].
      intros [= <-]. split; [done|]. by exists trader.
    + destruct (TradeV2_sell trader _) as [[t|]|e] eqn:Hflow; simpl;
        try discriminate.
      destruct (String.eqb_spec t EmptyString); simpl; [discriminate|].
      intros [= <-]. split; [done|]. by exists trader.
Qed.


(** X23. A BUY order only ever runs the buy flow and any other order only
    the sell flow, once, on the market of the order, through a [Trade]
    object built for the provider URL of the order's client; no flow is run
    when the constructor throws. *)
Theorem makeTrade_runs_flow_of_direction
    (orderV1 : V1.TradeOrder) (orderV2 : V2.TradeOrder) :
  let runV1 :=
    makeTradeV1 noMarketsMessage TradeV1_new TradeV1_buy TradeV1_sell
      orderV1 known_amount known_asset explorerLiquidAPI
      coinSelectionForTrade signer masterBlindingKey network
      addressForChangeOutput addressForSwapOutput torProxy in
  let runV2 :=
    makeTradeV2 noMarketsMessage TradeV2_new TradeV2_buy TradeV2_sell
      orderV2 known_amount known_asset explorerLiquidAPI
      coinSelectionForTrade signer masterBlindingKey network
      addressForChangeOutput addressForSwapOutput torProxy in
  let optsV1 :=
    mkTradeOpts explorerLiquidAPI (providerUrl (V1.traderClient orderV1))
      coinSelectionForTrade network masterBlindingKey signer in
  let optsV2 :=
    mkTradeOpts explorerLiquidAPI (providerUrl (V2.traderClient orderV2))
      coinSelectionForTrade network masterBlindingKey signer in
  let argsV1 :=
    mkTradeArgs known_amount known_asset (V1.market orderV1)
      addressForSwapOutput addressForChangeOutput in
  let argsV2 :=
    mkTradeArgs known_amount known_asset (V2.market orderV2)
      addressForSwapOutput addressForChangeOutput in
  List.filter isTradeCall (fst runV1)
  = match TradeV1_new optsV1 torProxy with
    | Throw _ => []
    | Ok _ => match V1.type orderV1 with
              | V1.BUY => [TradeBuy argsV1]
              | V1.SELL => [TradeSell argsV1]
              end
    end
  ∧ List.filter isTradeCall (fst runV2)
    = match TradeV2_new optsV2 torProxy with
      | Throw _ => []
      | Ok _ => match V2.type orderV2 with
                | V2.BUY => [TradeBuy argsV2]
                | V2.SELL => [TradeSell argsV2]
                end
      end.
Proof.
  intros runV1 runV2 optsV1 optsV2 argsV1 argsV2.
  subst runV1 runV2 optsV1 optsV2 argsV1 argsV2. split.
  - unfold makeTradeV1.
    destruct (TradeV1_new _ torProxy) as [trader|e]; [|done].
    destruct orderV1 as [m [] c]; simpl.
    + destruct (TradeV1_buy trader _) as [[t|]|e]; simpl;
        try destruct (String.eqb t EmptyString); done.
    + destruct (TradeV1_sell trader _) as [[t|]|e]; simpl;
        try destruct (String.eqb t EmptyString); done.
  - unfold makeTradeV2.
    destruct (TradeV2_new _ torProxy) as [trader|e]; [|done].
    destruct orderV2 as [m [] c]; simpl.
    + destruct (TradeV2_buy trader _) as [[t|]|e]; simpl;
        try destruct (String.eqb t EmptyString); done.
    + destruct (TradeV2_sell trader _) as [[t|]|e]; simpl;
        try destruct (String.eqb t EmptyString); done.
Qed.

End TradeExecutorProofs.

Lemma makeTrade_broadcast_txid_witness :
  snd (makeTradeV1 "no markets" sampleTradeNew sampleBuyV1 sampleSellV1
         sampleBuyOrderV1 100 "usdt" "https://explorer.example" tt tt
         "blinding key" "liquid" tt tt None)
  = Broadcast "9f2c"
  ∧ "9f2c"%string ≠ EmptyString.
Proof.
  split; [reflexivity|].
  exact (proj1 (proj1 (makeTrade_broadcast_txid "no markets"
                         sampleTradeNew sampleBuyV1 sampleSellV1
                         sampleTradeNew sampleBuyV2 sampleSellV2
                         100%Z "usdt" "https://explorer.example" tt tt
                         "blinding key" "liquid" tt tt None
                         sampleBuyOrderV1 sampleBuyOrderV2 "9f2c")
                      eq_refl)).
Defined.


(** ** Market catalog builder *)

(** What the loop of [getMarketsFromProviderV1] returns: the balance
    requests it makes are those of a prefix of the listed markets; it
    resolves when every request of the list resolves, to the markets merged
    in listing order, and rejects at the first request that rejects. *)
Lemma getMarketsFromProviderV1_loop_spec
    (getBalance : TraderClient → Market → result (option (list (string * Z))))
    client p items : ∀ results,
  let listed := omap item_market items in
  match getMarketsFromProviderV1_loop getBalance client p items results with
  | (t, Ok out) =>
      t = map (GetMarketBalance client) listed
      ∧ Forall (λ market, ∃ b, getBalance client market = Ok b) listed
      ∧ out = results
              ++ omap (λ item,
                         match item_market item with
                         | Some market =>
                             match getBalance client market with
                             | Ok b => Some (mergeMarketV1 p market b
                                               (item_fee item))
                             | Throw _ => None
                             end
                         | None => None
                         end) items
  | (t, Throw e) =>
      ∃ pre market post,
        listed = pre ++ market :: post
        ∧ Forall (λ market, ∃ b, getBalance client market = Ok b) pre
        ∧ getBalance client market = Throw e
        ∧ t = map (GetMarketBalance client) (pre ++ [market])
  end.
Proof.
  induction items as [|item items IH]; intros results; simpl.
  - by rewrite app_nil_r.
  - destruct (item_market item) as [market|] eqn:Hm; simpl; [|apply IH].
    destruct (getBalance client market) as [b|e] eqn:Hb.
    + specialize (IH (results ++ [mergeMarketV1 p market b (item_fee item)])).
      simpl in IH.
      destruct (getMarketsFromProviderV1_loop getBalance client p items _)
        as [t [out|e]].
      * destruct IH as (-> & Hall & ->). split; [done|]. split.
        -- constructor; [by exists b|done].
        -- by rewrite <- app_assoc.
      * destruct IH as (pre & mk & post & Hl & Hall & He & ->).
        exists (market :: pre), mk, post.
        split; [simpl; f_equal; exact Hl|].
        split; [constructor; [by exists b|done]|]. done.
    + exists [], market, (omap item_market items). by repeat split.
Qed.

(** What the loop of [getMarketsFromProviderV2] returns: the balance
    requests it makes are those of a prefix of the listed markets; it
    resolves when every request of the list resolves, to the markets merged
    in listing order, and rejects at the first request that rejects. *)
Lemma getMarketsFromProviderV2_loop_spec
    (getBalance : TraderClient → Market → result (option (list (string * Z))))
    client p items : ∀ results,
  let listed := omap item_market items in
  match getMarketsFromProviderV2_loop getBalance client p items results with
  | (t, Ok out) =>
      t = map (GetMarketBalance client) listed
      ∧ Forall (λ market, ∃ b, getBalance client market = Ok b) listed
      ∧ out = results
              ++ omap (λ item,
                         match item_market item with
                         | Some market =>
                             match getBalance client market with
                             | Ok b => Some (mergeMarketV2 p market b
                                               (item_fee item))
                             | Throw _ => None
                             end
                         | None => None
                         end) items
  | (t, Throw e) =>
      ∃ pre market post,
        listed = pre ++ market :: post
        ∧ Forall (λ market, ∃ b, getBalance client market = Ok b) pre
        ∧ getBalance client market = Throw e
        ∧ t = map (GetMarketBalance client) (pre ++ [market])
  end.
Proof.
  induction items as [|item items IH]; intros results; simpl.
  - by rewrite app_nil_r.
  - destruct (item_market item) as [market|] eqn:Hm; simpl; [|apply IH].
    destruct (getBalance client market) as [b|e] eqn:Hb.
    + specialize (IH (results ++ [mergeMarketV2 p market b (item_fee item)])).
      simpl in IH.
      destruct (getMarketsFromProviderV2_loop getBalance client p items _)
        as [t [out|e]].
      * destruct IH as (-> & Hall & ->). split; [done|]. split.
        -- constructor; [by exists b|done].
        -- by rewrite <- app_assoc.
      * destruct IH as (pre & mk & post & Hl & Hall & He & ->).
        exists (market :: pre), mk, post.
        split; [simpl; f_equal; exact Hl|].
        split; [constructor; [by exists b|done]|]. done.
    + exists [], market, (omap item_market items). by repeat split.
Qed.

Lemma mergeMarketV1_pairs
    (getBalance : TraderClient → Market → result (option (list (string * Z))))
    client p items :
  Forall (λ market, ∃ b, getBalance client market = Ok b)
         (omap item_market items) →
  map (λ m, (V1.provider m, V1.baseAsset m, V1.quoteAsset m))
      (omap (λ item,
               match item_market item with
               | Some market =>
                   match getBalance client market with
                   | Ok b => Some (mergeMarketV1 p market b (item_fee item))
                   | Throw _ => None
                   end
               | None => None
               end) items)
  = map (λ market, (p, market_baseAsset market, market_quoteAsset market))
        (omap item_market items).
Proof.
  induction items as [|item items IH]; simpl; [done|].
  destruct (item_market item) as [market|]; simpl; [|apply IH].
  intros [[b Hb] Hall]%Forall_cons. rewrite Hb. simpl. f_equal. by apply IH.
Qed.

Lemma getMarketsFromProviderV1_Ok cfg listMarkets getBalance p torProxy
    results :
  snd (getMarketsFromProviderV1 cfg listMarkets getBalance p torProxy)
  = Ok results →
  ∃ listed,
    listMarkets (mkTraderClient (endpoint p) (default cfg torProxy))
    = Ok listed
    ∧ Forall (λ market,
                ∃ b, getBalance
                       (mkTraderClient (endpoint p) (default cfg torProxy))
                       market = Ok b)
             (omap item_market listed)
    ∧ map (λ m, (V1.provider m, V1.baseAsset m, V1.quoteAsset m)) results
      = map (λ market,
               (p, market_baseAsset market, market_quoteAsset market))
            (omap item_market listed).
Proof.
  unfold getMarketsFromProviderV1.
  destruct (listMarkets _) as [listed|e]; [|discriminate].
  pose proof (getMarketsFromProviderV1_loop_spec getBalance
                (mkTraderClient (endpoint p) (default cfg torProxy))
                p listed []) as Hloop.
  simpl in Hloop.
  destruct (getMarketsFromProviderV1_loop _ _ _ _ _) as [t [out|e]];
    simpl; [|discriminate].
  intros [= <-]. destruct Hloop as (_ & Hall & ->).
  exists listed. split; [done|]. split; [done|].
  by apply mergeMarketV1_pairs.
Qed.

Lemma mergeMarketV2_pairs
    (getBalance : TraderClient → Market → result (option (list (string * Z))))
    client p items :
  Forall (λ market, ∃ b, getBalance client market = Ok b)
         (omap item_market items) →
  map (λ m, (V2.provider m, V2.baseAsset m, V2.quoteAsset m))
      (omap (λ item,
               match item_market item with
               | Some market =>
                   match getBalance client market with
                   | Ok b => Some (mergeMarketV2 p market b (item_fee item))
                   | Throw _ => None
                   end
               | None => None
               end) items)
  = map (λ market, (p, market_baseAsset market, market_quoteAsset market))
        (omap item_market items).
Proof.
  induction items as [|item items IH]; simpl; [done|].
  destruct (item_market item) as [market|]; simpl; [|apply IH].
  intros [[b Hb] Hall]%Forall_cons. rewrite Hb. simpl. f_equal. by apply IH.
Qed.

Lemma getMarketsFromProviderV2_Ok cfg listMarkets getBalance p torProxy
    results :
  snd (getMarketsFromProviderV2 cfg listMarkets getBalance p torProxy)
  = Ok results →
  ∃ listed,
    listMarkets (mkTraderClient (endpoint p) (default cfg torProxy))
    = Ok listed
    ∧ Forall (λ market,
                ∃ b, getBalance
                       (mkTraderClient (endpoint p) (default cfg torProxy))
                       market = Ok b)
             (omap item_market listed)
    ∧ map (λ m, (V2.provider m, V2.baseAsset m, V2.quoteAsset m)) results
      = map (λ market,
               (p, market_baseAsset market, market_quoteAsset market))
            (omap item_market listed).
Proof.
  unfold getMarketsFromProviderV2.
  destruct (listMarkets _) as [listed|e]; [|discriminate].
  pose proof (getMarketsFromProviderV2_loop_spec getBalance
                (mkTraderClient (endpoint p) (default cfg torProxy))
                p listed []) as Hloop.
  simpl in Hloop.
  destruct (getMarketsFromProviderV2_loop _ _ _ _ _) as [t [out|e]];
    simpl; [|discriminate].
  intros [= <-]. destruct Hloop as (_ & Hall & ->).
  exists listed. split; [done|]. split; [done|].
  by apply mergeMarketV2_pairs.
Qed.

(** X24. When [getMarketsFromProviderV1] or [getMarketsFromProviderV2]
    resolves, its result has one market per listed entry that has a market,
    in listing order, each carrying the provider queried and the asset pair
    of the listing; entries without market are dropped. *)
Theorem getMarketsFromProvider_catalog
    (cfg : string)
    (list1 list2 : TraderClient → result (list MarketWithFee))
    (bal1 bal2 : TraderClient → Market → result (option (list (string * Z))))
    (p : TDEXProvider) (torProxy : option string) :
  let client := mkTraderClient (endpoint p) (default cfg torProxy) in
  (∀ results,
     snd (getMarketsFromProviderV1 cfg list1 bal1 p torProxy) = Ok results →
     ∃ listed,
       list1 client = Ok listed
       ∧ map (λ m, (V1.provider m, V1.baseAsset m, V1.quoteAsset m)) results
         = map (λ market,
                  (p, market_baseAsset market, market_quoteAsset market))
               (omap item_market listed))
  ∧ (∀ results,
       snd (getMarketsFromProviderV2 cfg list2 bal2 p torProxy) = Ok results →
       ∃ listed,
         list2 client = Ok listed
         ∧ map (λ m, (V2.provider m, V2.baseAsset m, V2.quoteAsset m)) results
           = map (λ market,
                    (p, market_baseAsset market, market_quoteAsset market))
                 (omap item_market listed)).
Proof.
  intros client. split; intros results Hr.
  - apply getMarketsFromProviderV1_Ok in Hr as (listed & ? & _ & ?).
    by exists listed.
  - apply getMarketsFromProviderV2_Ok in Hr as (listed & ? & _ & ?).
    by exists listed.
Qed.

Lemma getMarketsFromProvider_catalog_witness :
  ∃ listed,
    sampleListMarkets
      (mkTraderClient (endpoint sampleProvider)
                      (default sampleTorProxy None)) = Ok listed
    ∧ map (λ m, (V1.provider m, V1.baseAsset m, V1.quoteAsset m))
          [V1.mkMarket sampleProvider "lbtc" "usdt"
             [("baseAmount"%string, 1000%Z); ("quoteAmount"%string, 500%Z)];
           V1.mkMarket sampleProvider "lbtc" "lcad"
             [("baseAmount"%string, 1000%Z); ("quoteAmount"%string, 500%Z)]]
      = map (λ market,
               (sampleProvider, market_baseAsset market,
                market_quoteAsset market))
            (omap item_market listed).
Proof.
  apply (proj1 (getMarketsFromProvider_catalog sampleTorProxy
                  sampleListMarkets sampleListMarkets
                  sampleGetMarketBalance sampleGetMarketBalance
                  sampleProvider None)).
  reflexivity.
Defined.


(** X26. A catalog builder resolves exactly when the listing resolves and
    the balance request of every listed market resolves: one failed request
    rejects the whole call, and no partial catalog is returned. *)
Theorem getMarketsFromProvider_all_or_nothing
    (cfg : string)
    (list1 list2 : TraderClient → result (list MarketWithFee))
    (bal1 bal2 : TraderClient → Market → result (option (list (string * Z))))
    (p : TDEXProvider) (torProxy : option string) :
  let client := mkTraderClient (endpoint p) (default cfg torProxy) in
  ((∃ results,
      snd (getMarketsFromProviderV1 cfg list1 bal1 p torProxy) = Ok results)
   ↔ ∃ listed,
       list1 client = Ok listed
       ∧ Forall (λ market, ∃ b, bal1 client market = Ok b)
                (omap item_market listed))
  ∧ ((∃ results,
        snd (getMarketsFromProviderV2 cfg list2 bal2 p torProxy) = Ok results)
     ↔ ∃ listed,
         list2 client = Ok listed
         ∧ Forall (λ market, ∃ b, bal2 client market = Ok b)
                  (omap item_market listed)).
Proof.
  intros client. split; split.
  - intros [results Hr].
    apply getMarketsFromProviderV1_Ok in Hr as (listed & ? & ? & _).
    by exists listed.
  - intros (listed & Hl & Hall). unfold getMarketsFromProviderV1.
    fold client. rewrite Hl.
    pose proof (getMarketsFromProviderV1_loop_spec bal1 client p listed [])
      as Hloop. simpl in Hloop.
    destruct (getMarketsFromProviderV1_loop _ _ _ _ _) as [t [out|e]]; simpl;
      [by eexists|].
    destruct Hloop as (pre & mk & post & Heq & _ & He & _).
    rewrite Heq in Hall. apply Forall_app in Hall as [_ Hall].
    apply Forall_cons in Hall as [[b Hb] _]. congruence.
  - intros [results Hr].
    apply getMarketsFromProviderV2_Ok in Hr as (listed & ? & ? & _).
    by exists listed.
  - intros (listed & Hl & Hall). unfold getMarketsFromProviderV2.
    fold client. rewrite Hl.
    pose proof (getMarketsFromProviderV2_loop_spec bal2 client p listed [])
      as Hloop. simpl in Hloop.
    destruct (getMarketsFromProviderV2_loop _ _ _ _ _) as [t [out|e]]; simpl;
      [by eexists|].
    destruct Hloop as (pre & mk & post & Heq & _ & He & _).
    rewrite Heq in Hall. apply Forall_app in Hall as [_ Hall].
    apply Forall_cons in Hall as [[b Hb] _]. congruence.
Qed.

(** X27. Every order computed from the catalog of a provider is bound to a
    client of that provider: its URL is the provider's endpoint, for every
    asset pair and every proxy. *)
Theorem computeOrders_of_provider_catalog
    (cfg : string)
    (list1 list2 : TraderClient → result (list MarketWithFee))
    (bal1 bal2 : TraderClient → Market → result (option (list (string * Z))))
    (p : TDEXProvider) (torProxy orderProxy : option string)
    (sentAsset receivedAsset : string) :
  (∀ results,
     snd (getMarketsFromProviderV1 cfg list1 bal1 p torProxy) = Ok results →
     Forall (λ o, providerUrl (V1.traderClient o) = endpoint p)
            (computeOrdersV1 results sentAsset receivedAsset orderProxy))
  ∧ (∀ results,
       snd (getMarketsFromProviderV2 cfg list2 bal2 p torProxy) = Ok results →
       Forall (λ o, providerUrl (V2.traderClient o) = endpoint p)
              (computeOrdersV2 cfg results sentAsset receivedAsset
                               orderProxy)).
Proof.
  split; intros results Hr; apply Forall_forall; intros o Ho;
    apply list_elem_of_In in Ho.
  - apply getMarketsFromProviderV1_Ok in Hr as (listed & _ & _ & Hmap).
    apply computeOrdersV1_In in Ho as (Hin & -> & _). simpl.
    assert (Hp : In (V1.provider (V1.market o), V1.baseAsset (V1.market o),
                     V1.quoteAsset (V1.market o))
                    (map (λ m, (V1.provider m, V1.baseAsset m,
                                V1.quoteAsset m)) results))
      by (apply in_map_iff; by exists (V1.market o)).
    rewrite Hmap in Hp. apply in_map_iff in Hp as (mk & [= <- _ _] & _).
    done.
  - apply getMarketsFromProviderV2_Ok in Hr as (listed & _ & _ & Hmap).
    apply computeOrdersV2_In in Ho as (Hin & -> & _). simpl.
    assert (Hp : In (V2.provider (V2.market o), V2.baseAsset (V2.market o),
                     V2.quoteAsset (V2.market o))
                    (map (λ m, (V2.provider m, V2.baseAsset m,
                                V2.quoteAsset m)) results))
      by (apply in_map_iff; by exists (V2.market o)).
    rewrite Hmap in Hp. apply in_map_iff in Hp as (mk & [= <- _ _] & _).
    done.
Qed.

Lemma computeOrders_of_provider_catalog_witness :
  Forall (λ o, providerUrl (V1.traderClient o) = endpoint sampleProvider)
    (computeOrdersV1
       [V1.mkMarket sampleProvider "lbtc" "usdt"
          [("baseAmount"%string, 1000%Z); ("quoteAmount"%string, 500%Z)];
        V1.mkMarket sampleProvider "lbtc" "lcad"
          [("baseAmount"%string, 1000%Z); ("quoteAmount"%string, 500%Z)]]
       "lbtc" "usdt" None).
Proof.
  apply (proj1 (computeOrders_of_provider_catalog sampleTorProxy
                  sampleListMarkets sampleListMarkets
                  sampleGetMarketBalance sampleGetMarketBalance
                  sampleProvider None None "lbtc" "usdt")).
  reflexivity.
Defined.
